(** * Verification of the transcoding task scheduler (apps/transcoding/task.py)

    A shallow embedding of [TranscodingTask] and [TranscodingTaskBuilder]:
    Python objects become records, the insertion-ordered dict
    [subtasks_given] becomes an association list, the int-keyed dict
    [number_of_failed_subtask_tries] becomes a [gmap Z Z], unbounded Python
    integers become [Z], and methods become computations in a state and
    exception monad in which the mutations made before a [raise] persist,
    as they do in Python.  Calls to external collaborators (the stream
    operator, the docker API, [os] and [shutil]) are recorded in an effect
    log carried by the state.  Calls to [logger] are diagnostics only and
    are left out.  The body of a [with self.lock:] block is one atomic
    step. *)

From Stdlib Require Import ZArith String Ascii List Bool Lia.
From Stdlib Require Import Floats.SpecFloat.
From stdpp Require Import base decidable option list gmap strings pretty.

Local Open Scope string_scope.
Local Open Scope Z_scope.

(** ** Python values *)

(** JSON-like values found in task dictionaries and parameter bundles. *)
#[warnings="-register-all"]
Inductive PyVal : Type :=
| PNone
| PBool (b : bool)
| PInt (n : Z)
| PStr (s : string)
| PList (l : list PyVal)
| PDict (d : list (string * PyVal)).

(** Exceptions raised by the modelled code. *)
Inductive exn : Type :=
| KeyError (key : PyVal)
| IndexError
| AssertionError (msg : string)
| TypeError (msg : string)
| StopIteration
| TranscodingTaskBuilderException (msg : string)
| UnknownDispatch (dispatch_id : string)
| ExternalError (msg : string).

(** ** Insertion-ordered dictionaries with string keys *)

Module Dict.
Definition t (V : Type) : Type := list (string * V).

Fixpoint get {V} (d : t V) (k : string) : option V :=
  match d with
  | [] => None
  | (k', v) :: d' => if decide (k = k') then Some v else get d' k
  end.

(** [d[k] = v]: an existing key keeps its position, a new key is appended. *)
Fixpoint set {V} (d : t V) (k : string) (v : V) : t V :=
  match d with
  | [] => [(k, v)]
  | (k', v') :: d' =>
      if decide (k = k') then (k, v) :: d' else (k', v') :: set d' k v
  end.

Definition keys {V} (d : t V) : list string := map fst d.
Definition values {V} (d : t V) : list V := map snd d.
Definition contains {V} (d : t V) (k : string) : bool :=
  match get d k with Some _ => true | None => false end.
End Dict.

(** ** Subtask records *)

Module SubtaskStatus.
(** Members of [golem.task.taskstate.SubtaskStatus] named in the source;
    [other] stands for any member the source does not name. *)
Inductive t : Type :=
| starting
| resent
| finished
| failure
| restarted
| timeout
| cancelled
| other (name : string).

#[global] Instance eq_dec : EqDecision t.
Proof. solve_decision. Defined.

(** Python's [status in [...]]. *)
Definition is_in (s : t) (l : list t) : bool :=
  existsb (fun x => bool_decide (s = x)) l.
End SubtaskStatus.

(** The dict built by [query_extra_data]; [perf] is the provider's
    performance index (a Python float), stored and never inspected. *)
Record Subtask : Type := mkSubtask {
  perf : spec_float;
  node_id : option string;
  subtask_id : string;
  transcoding_params : PyVal;
  subtask_num : Z;
  status : SubtaskStatus.t
}.

Definition set_status (s : SubtaskStatus.t) (sub : Subtask) : Subtask :=
  {| perf := perf sub; node_id := node_id sub; subtask_id := subtask_id sub;
     transcoding_params := transcoding_params sub;
     subtask_num := subtask_num sub; status := s |}.

(** ** Task definition and task state *)

Record TranscodingTaskOptions : Type := mkOptions {
  input_stream_path : string;
  output_container : option string;
  strip_unsupported_data_streams : bool;
  strip_unsupported_subtitle_streams : bool
}.

Record TranscodingTaskDefinition : Type := mkDefinition {
  task_id : string;
  name : string;
  output_file : string;
  resources : list string;
  subtasks_count : Z;
  options : TranscodingTaskOptions
}.

(** Calls that leave the task object. *)
Inductive effect : Type :=
| remove_intermediate_videos (dir pattern : string)
| merge_and_replace_video_streams
    (input_file : string) (chunks : list string)
    (output_basename task_dir : string) (container : option string)
    (strip_data strip_subtitles : bool)
| makedirs (path : string)
| move (src dst : string).

Record TranscodingTask : Type := mkTask {
  (* attributes of the base class used by the source *)
  subtasks_given : Dict.t Subtask;
  num_tasks_received : Z;
  num_failed_subtasks : Z;
  last_task : Z;
  (* attributes set in TranscodingTask.__init__ *)
  subtask_exceeded_max_retries_after_fail : bool;
  number_of_failed_subtask_tries : gmap Z Z;
  task_definition : TranscodingTaskDefinition;
  chunks : list string;
  collected_files : list string;
  task_dir : string;
  resources_dir : string;
  (* external calls made so far, oldest first *)
  effects : list effect
}.

(** ** The state and exception monad *)

Definition Py (A : Type) : Type := TranscodingTask -> (exn + A) * TranscodingTask.

Definition ret {A} (a : A) : Py A := fun st => (inr a, st).
Definition raise {A} (e : exn) : Py A := fun st => (inl e, st).
Definition bind {A B} (m : Py A) (k : A -> Py B) : Py B :=
  fun st =>
    match m st with
    | (inr a, st') => k a st'
    | (inl e, st') => (inl e, st')
    end.
Definition get_self : Py TranscodingTask := fun st => (inr st, st).
Definition gets {A} (f : TranscodingTask -> A) : Py A := fun st => (inr (f st), st).
Definition modify (f : TranscodingTask -> TranscodingTask) : Py unit :=
  fun st => (inr tt, f st).

#[global] Instance Py_ret : MRet Py := @ret.
#[global] Instance Py_bind : MBind Py := fun A B k m => bind m k.

Definition assert (b : bool) (msg : string) : Py unit :=
  if b then ret tt else raise (AssertionError msg).

(** Python's [l[i]] for an integer index, negative indices included. *)
Definition py_index {A} (l : list A) (i : Z) : Py A :=
  let n := Z.of_nat (length l) in
  let j := if i <? 0 then i + n else i in
  if (0 <=? j) && (j <? n) then
    match l !! Z.to_nat j with
    | Some x => mret x
    | None => raise IndexError
    end
  else raise IndexError.

(** ** Attribute updates *)

Definition with_subtasks_given (d : Dict.t Subtask) (self : TranscodingTask) :=
  mkTask d (num_tasks_received self) (num_failed_subtasks self)
    (last_task self) (subtask_exceeded_max_retries_after_fail self)
    (number_of_failed_subtask_tries self) (task_definition self) (chunks self)
    (collected_files self) (task_dir self) (resources_dir self) (effects self).

Definition with_num_tasks_received (n : Z) (self : TranscodingTask) :=
  mkTask (subtasks_given self) n (num_failed_subtasks self)
    (last_task self) (subtask_exceeded_max_retries_after_fail self)
    (number_of_failed_subtask_tries self) (task_definition self) (chunks self)
    (collected_files self) (task_dir self) (resources_dir self) (effects self).

Definition with_num_failed_subtasks (n : Z) (self : TranscodingTask) :=
  mkTask (subtasks_given self) (num_tasks_received self) n
    (last_task self) (subtask_exceeded_max_retries_after_fail self)
    (number_of_failed_subtask_tries self) (task_definition self) (chunks self)
    (collected_files self) (task_dir self) (resources_dir self) (effects self).

Definition with_last_task (n : Z) (self : TranscodingTask) :=
  mkTask (subtasks_given self) (num_tasks_received self)
    (num_failed_subtasks self) n
    (subtask_exceeded_max_retries_after_fail self)
    (number_of_failed_subtask_tries self) (task_definition self) (chunks self)
    (collected_files self) (task_dir self) (resources_dir self) (effects self).

Definition with_subtask_exceeded_max_retries_after_fail
    (b : bool) (self : TranscodingTask) :=
  mkTask (subtasks_given self) (num_tasks_received self)
    (num_failed_subtasks self) (last_task self) b
    (number_of_failed_subtask_tries self) (task_definition self) (chunks self)
    (collected_files self) (task_dir self) (resources_dir self) (effects self).

Definition with_number_of_failed_subtask_tries
    (m : gmap Z Z) (self : TranscodingTask) :=
  mkTask (subtasks_given self) (num_tasks_received self)
    (num_failed_subtasks self) (last_task self)
    (subtask_exceeded_max_retries_after_fail self) m
    (task_definition self) (chunks self)
    (collected_files self) (task_dir self) (resources_dir self) (effects self).

Definition with_collected_files (l : list string) (self : TranscodingTask) :=
  mkTask (subtasks_given self) (num_tasks_received self)
    (num_failed_subtasks self) (last_task self)
    (subtask_exceeded_max_retries_after_fail self)
    (number_of_failed_subtask_tries self) (task_definition self) (chunks self)
    l (task_dir self) (resources_dir self) (effects self).

Definition with_effects (l : list effect) (self : TranscodingTask) :=
  mkTask (subtasks_given self) (num_tasks_received self)
    (num_failed_subtasks self) (last_task self)
    (subtask_exceeded_max_retries_after_fail self)
    (number_of_failed_subtask_tries self) (task_definition self) (chunks self)
    (collected_files self) (task_dir self) (resources_dir self) l.

(** ** External collaborators *)

(** What each external call returns or raises; the calls themselves are
    appended to [effects]. *)
Record Collaborators : Type := mkCollaborators {
  remove_intermediate_videos_raises : string -> string -> option exn;
  merge_and_replace_video_streams_returns :
    string -> list string -> string -> string -> option string ->
    bool -> bool -> exn + string;
  makedirs_raises : string -> option exn;
  move_raises : string -> string -> option exn;
  isfile : string -> bool
}.

Definition call {A} (e : effect) (outcome : exn + A) : Py A :=
  modify (fun self => with_effects (effects self ++ [e]) self);;
  match outcome with
  | inr a => mret a
  | inl err => raise err
  end.

Definition returns_none (o : option exn) : exn + unit :=
  match o with
  | None => inr tt
  | Some err => inl err
  end.

(** ** posixpath *)

Definition is_slash (c : ascii) : bool := bool_decide (c = "/"%char).

(** [(p[:i], p[i:])] for [i = p.rfind('/') + 1]. *)
Fixpoint split_at_last_slash (p : string) : string * string :=
  match p with
  | EmptyString => (EmptyString, EmptyString)
  | String c p' =>
      let '(h, t) := split_at_last_slash p' in
      match h with
      | String _ _ => (String c h, t)
      | EmptyString =>
          if is_slash c then (String c EmptyString, t)
          else (EmptyString, String c t)
      end
  end.

Fixpoint all_slashes (p : string) : bool :=
  match p with
  | EmptyString => true
  | String c p' => is_slash c && all_slashes p'
  end.

(** [p.rstrip('/')] *)
Fixpoint rstrip_slashes (p : string) : string :=
  match p with
  | EmptyString => EmptyString
  | String c p' =>
      match rstrip_slashes p' with
      | EmptyString => if is_slash c then EmptyString else String c EmptyString
      | r => String c r
      end
  end.

Definition basename (p : string) : string := snd (split_at_last_slash p).

Definition dirname (p : string) : string :=
  let head := fst (split_at_last_slash p) in
  if all_slashes head then head else rstrip_slashes head.

Definition ends_with_slash (p : string) : bool :=
  match split_at_last_slash p with
  | (String _ _, EmptyString) => true
  | _ => false
  end.

(** [os.path.join(a, b)] *)
Definition path_join (a b : string) : string :=
  match b with
  | String c _ =>
      if is_slash c then b
      else if bool_decide (a = EmptyString) || ends_with_slash a then a +:+ b
      else a +:+ "/" +:+ b
  | EmptyString =>
      if bool_decide (a = EmptyString) || ends_with_slash a then a
      else a +:+ "/"
  end.

(** ** The base class *)

(** The methods of [CoreTask] that [TranscodingTask] reaches through
    [super()]. *)
Record CoreTask : Type := mkCoreTask {
  core_accept_results : string -> list string -> Py unit;
  core_computation_failed : string -> bool -> Py unit;
  core_needs_computation : TranscodingTask -> bool;
  core_finished_computation : TranscodingTask -> bool
}.

(** [get_total_tasks()]: the chunk count [initialize] stores in
    [task_definition.subtasks_count]. *)
Definition get_total_tasks (self : TranscodingTask) : Z :=
  subtasks_count (task_definition self).

(** The entries of the [ComputeTaskDef] that are computed from the task's
    own state.  The entries taken from the base class's header
    ([task_id], [docker_images]) and from the clock ([deadline]) are left
    out. *)
Record ComputeTaskDef : Type := mkComputeTaskDef {
  ctd_subtask_id : string;
  ctd_extra_data : PyVal;
  ctd_performance : spec_float;
  ctd_resources : list string
}.

(** ** TranscodingTask *)

Definition MAX_SUBTASK_RETRIES_AFTER_FAIL : Z := 2.

Definition is_failed_or_restarted (sub : Subtask) : bool :=
  SubtaskStatus.is_in (status sub)
    [SubtaskStatus.failure; SubtaskStatus.restarted].

Definition _is_subtask_ended (subtask : Subtask) : bool :=
  SubtaskStatus.is_in (status subtask)
    [SubtaskStatus.finished; SubtaskStatus.failure; SubtaskStatus.timeout;
     SubtaskStatus.cancelled; SubtaskStatus.resent].

Definition _all_subtasks_have_ended_status (self : TranscodingTask) : bool :=
  let subtasks := Dict.values (subtasks_given self) in
  let ended_subtasks := List.filter _is_subtask_ended subtasks in
  bool_decide (length ended_subtasks = length subtasks).

Definition _get_subtask_number_from_id (subtask_id : string) : Py Z :=
  self ← get_self;
  match Dict.get (subtasks_given self) subtask_id with
  | Some subtask => mret (subtask_num subtask)
  | None => raise (KeyError (PStr subtask_id))
  end.

Definition _should_retry_failed_subtask (failed_subtask_id : string) : Py bool :=
  task_number ← _get_subtask_number_from_id failed_subtask_id;
  self ← get_self;
  match number_of_failed_subtask_tries self !! task_number with
  | Some number_of_fails =>
      mret (number_of_fails <? MAX_SUBTASK_RETRIES_AFTER_FAIL)
  | None => raise (KeyError (PInt task_number))
  end.

Definition _increment_number_of_subtask_fails (failed_subtask_id : string)
    : Py unit :=
  subtask_number ← _get_subtask_number_from_id failed_subtask_id;
  modify (fun self =>
    match number_of_failed_subtask_tries self !! subtask_number with
    | None =>
        with_number_of_failed_subtask_tries
          (<[subtask_number := 0]> (number_of_failed_subtask_tries self)) self
    | Some _ => self
    end);;
  self ← get_self;
  match number_of_failed_subtask_tries self !! subtask_number with
  | Some n =>
      modify (with_number_of_failed_subtask_tries
                (<[subtask_number := n + 1]>
                   (number_of_failed_subtask_tries self)))
  | None => raise (KeyError (PInt subtask_number))
  end.

(** The first value of [subtasks_given], in the dict's iteration order,
    whose status is failure or restarted, with its position. *)
Definition first_failed_subtask (self : TranscodingTask)
    : option (nat * Subtask) :=
  list_find (fun sub => is_failed_or_restarted sub = true)
            (Dict.values (subtasks_given self)).

Definition _get_next_subtask : Py Z :=
  self ← get_self;
  match first_failed_subtask self with
  | Some (i, failed_subtask) =>
      modify (fun self =>
        with_subtasks_given
          (alter (fun kv => (kv.1, set_status SubtaskStatus.resent kv.2)) i
                 (subtasks_given self)) self);;
      modify (fun self =>
        with_num_failed_subtasks (num_failed_subtasks self - 1) self);;
      mret (subtask_num failed_subtask)
  | None =>
      assert (last_task self <? get_total_tasks self) EmptyString;;
      let curr := last_task self + 1 in
      modify (with_last_task curr);;
      mret (curr - 1)
  end.

Section TranscodingTask.
Variable super : CoreTask.
Variable world : Collaborators.
(** The abstract method, supplied by the concrete subclass. *)
Variable _get_extra_data : Z -> PyVal.

Definition _collect_results (results : list string) : Py unit :=
  modify (fun self =>
    with_collected_files (collected_files self ++ results) self).

Definition _merge_video : Py bool :=
  self ← get_self;
  let td := task_definition self in
  call (remove_intermediate_videos (resources_dir self) "*")
       (returns_none
          (remove_intermediate_videos_raises world (resources_dir self) "*"));;
  let output_basename := basename (output_file td) in
  assert (bool_decide (length (resources td) = 1%nat))
    "Assumption: input file is the only resource in a transcoding task";;
  match resources td with
  | [] => raise StopIteration
  | input_file :: _ =>
      merged ←
        call (merge_and_replace_video_streams
                input_file (collected_files self) output_basename
                (task_dir self) (output_container (options td))
                (strip_unsupported_data_streams (options td))
                (strip_unsupported_subtitle_streams (options td)))
             (merge_and_replace_video_streams_returns world
                input_file (collected_files self) output_basename
                (task_dir self) (output_container (options td))
                (strip_unsupported_data_streams (options td))
                (strip_unsupported_subtitle_streams (options td)));
      call (makedirs (dirname (output_file td)))
           (returns_none (makedirs_raises world (dirname (output_file td))));;
      call (move merged (output_file td))
           (returns_none (move_raises world merged (output_file td)));;
      mret true
  end.

Definition accept_results (subtask_id : string) (result_files : list string)
    : Py unit :=
  core_accept_results super subtask_id result_files;;
  _collect_results result_files;;
  modify (fun self =>
    with_num_tasks_received (num_tasks_received self + 1) self);;
  self ← get_self;
  if bool_decide (num_tasks_received self = get_total_tasks self)
  then _merge_video;; mret tt
  else mret tt.

Definition needs_computation (self : TranscodingTask) : bool :=
  if subtask_exceeded_max_retries_after_fail self then false
  else core_needs_computation super self.

Definition computation_failed (subtask_id : string) (ban_node : bool)
    : Py unit :=
  _increment_number_of_subtask_fails subtask_id;;
  should_retry ← _should_retry_failed_subtask subtask_id;
  (if negb should_retry
   then modify (with_subtask_exceeded_max_retries_after_fail true)
   else mret tt);;
  core_computation_failed super subtask_id true.

Definition finished_computation (self : TranscodingTask) : bool :=
  if subtask_exceeded_max_retries_after_fail self
  then _all_subtasks_have_ended_status self
  else core_finished_computation super self.

Definition _get_task_computing_definition
    (sid : string) (transcoding_params : PyVal) (perf_idx : spec_float)
    (resources : list string) : ComputeTaskDef :=
  {| ctd_subtask_id := sid; ctd_extra_data := transcoding_params;
     ctd_performance := perf_idx; ctd_resources := resources |}.

(** [sid] is the identifier that [self.create_subtask_id()] returns for
    this call. *)
Definition query_extra_data (sid : string) (perf_index : spec_float)
    (node_id : option string) : Py ComputeTaskDef :=
  subtask_num ← _get_next_subtask;
  let transcoding_params := _get_extra_data subtask_num in
  let subtask :=
    {| perf := perf_index; node_id := node_id; subtask_id := sid;
       transcoding_params := transcoding_params;
       subtask_num := subtask_num; status := SubtaskStatus.starting |} in
  modify (fun self =>
    with_subtasks_given (Dict.set (subtasks_given self) sid subtask) self);;
  self ← get_self;
  chunk ← py_index (chunks self) subtask_num;
  mret (_get_task_computing_definition
          sid transcoding_params perf_index [chunk]).
End TranscodingTask.

(** ** The base class, as the specification describes it

    [apps/core/task/coretask.py] lies outside the verified sources; the
    four methods below follow the specification's description of the
    notification handlers and of the task-level predicates. *)

Definition is_outstanding (sub : Subtask) : bool :=
  bool_decide (status sub = SubtaskStatus.starting).

(** Modelled from the spec: [CoreTask.accept_results], missing from the
    sources.  Section 4.5: the notification "resolves dispatch id -> chunk
    index, sets status accordingly" and "fails with UnknownDispatch if the
    dispatch id does not match any outstanding dispatch (already resolved,
    or never issued)". *)
Definition CoreTask_accept_results
    (subtask_id : string) (result_files : list string) : Py unit :=
  self ← get_self;
  match Dict.get (subtasks_given self) subtask_id with
  | Some subtask =>
      if is_outstanding subtask then
        modify (with_subtasks_given
                  (Dict.set (subtasks_given self) subtask_id
                     (set_status SubtaskStatus.finished subtask)))
      else raise (UnknownDispatch subtask_id)
  | None => raise (UnknownDispatch subtask_id)
  end.

(** Modelled from the spec: [CoreTask.computation_failed], missing from the
    sources.  Section 4.5 as above, with the status set to failed; the
    outstanding-failure count that section 4.3 decrements on a retry is
    incremented here. *)
Definition CoreTask_computation_failed
    (subtask_id : string) (ban_node : bool) : Py unit :=
  self ← get_self;
  match Dict.get (subtasks_given self) subtask_id with
  | Some subtask =>
      if is_outstanding subtask then
        modify (with_subtasks_given
                  (Dict.set (subtasks_given self) subtask_id
                     (set_status SubtaskStatus.failure subtask)));;
        modify (fun self =>
          with_num_failed_subtasks (num_failed_subtasks self + 1) self)
      else raise (UnknownDispatch subtask_id)
  | None => raise (UnknownDispatch subtask_id)
  end.

(** Modelled from the spec: [CoreTask.needs_computation], missing from the
    sources.  Section 4.3: there is work while a failed chunk awaits its
    retry or "dispatchCursor < N". *)
Definition CoreTask_needs_computation (self : TranscodingTask) : bool :=
  (0 <? num_failed_subtasks self) || (last_task self <? get_total_tasks self).

(** Modelled from the spec: [CoreTask.finished_computation], missing from
    the sources.  Section 4.5: "if succeededCount == N, termination is
    reached (full success)". *)
Definition CoreTask_finished_computation (self : TranscodingTask) : bool :=
  bool_decide (num_tasks_received self = get_total_tasks self).

Definition core_task : CoreTask :=
  {| core_accept_results := CoreTask_accept_results;
     core_computation_failed := CoreTask_computation_failed;
     core_needs_computation := CoreTask_needs_computation;
     core_finished_computation := CoreTask_finished_computation |}.

(** The task after [__init__] and [initialize]: nothing dispatched, nothing
    received, one chunk file per subtask. *)
Definition new_task (td : TranscodingTaskDefinition) (chunk_files : list string)
    (task_dir resources_dir : string) : TranscodingTask :=
  {| subtasks_given := [];
     num_tasks_received := 0;
     num_failed_subtasks := 0;
     last_task := 0;
     subtask_exceeded_max_retries_after_fail := false;
     number_of_failed_subtask_tries := ∅;
     task_definition :=
       mkDefinition (task_id td) (name td) (output_file td) (resources td)
         (Z.of_nat (length chunk_files)) (options td);
     chunks := chunk_files;
     collected_files := [];
     task_dir := task_dir;
     resources_dir := resources_dir;
     effects := [] |}.

(** ** Runs *)

Section Runs.
Variable world : Collaborators.
Variable _get_extra_data : Z -> PyVal.

(** One request of the external dispatch loop: a call of
    [query_extra_data].  Nothing in the task keeps the loop from asking at
    any time. *)
Definition poll (sid : string) (perf_index : spec_float)
    (node_id : option string) : Py ComputeTaskDef :=
  query_extra_data _get_extra_data sid perf_index node_id.

(** What reaches the task from outside. *)
Inductive event : Type :=
| ev_poll (sid : string) (perf_index : spec_float) (node_id : option string)
| ev_accept (subtask_id : string) (result_files : list string)
| ev_failed (subtask_id : string).

(** The state an event leaves behind, whether the method returns or
    raises. *)
Definition step (self : TranscodingTask) (e : event) : TranscodingTask :=
  match e with
  | ev_poll sid perf_index node_id => snd (poll sid perf_index node_id self)
  | ev_accept subtask_id result_files =>
      snd (accept_results core_task world subtask_id result_files self)
  | ev_failed subtask_id =>
      snd (computation_failed core_task subtask_id true self)
  end.

Definition run (events : list event) (self : TranscodingTask)
    : TranscodingTask :=
  fold_left step events self.
End Runs.

(** Number of times [_merge_video] has been entered: its first statement is
    the only call of [remove_intermediate_videos]. *)
Definition merge_invocations (self : TranscodingTask) : nat :=
  length (List.filter
            (fun e => match e with
                      | remove_intermediate_videos _ _ => true
                      | _ => false
                      end)
            (effects self)).

(** The chunk lists handed to the external merger, oldest call first. *)
Definition merged_chunk_lists (self : TranscodingTask) : list (list string) :=
  omap (fun e => match e with
                 | merge_and_replace_video_streams _ l _ _ _ _ _ => Some l
                 | _ => None
                 end)
       (effects self).

(** ** Python's [str] and [repr] on values

    Strings are byte strings here; bytes above 127 are taken to belong to
    printable characters and are copied by [repr]. *)

Definition squote : ascii := "'"%char.
Definition dquote : ascii := ascii_of_nat 34.
Definition backslash : ascii := ascii_of_nat 92.

Fixpoint string_contains (c : ascii) (s : string) : bool :=
  match s with
  | EmptyString => false
  | String c' s' => bool_decide (c = c') || string_contains c s'
  end.

Definition hex_digit (n : nat) : ascii :=
  ascii_of_nat (if (n <? 10)%nat then 48 + n else 87 + n).

Definition repr_char (quote c : ascii) : string :=
  let n := nat_of_ascii c in
  if bool_decide (c = backslash) then String backslash (String backslash EmptyString)
  else if bool_decide (c = quote) then String backslash (String quote EmptyString)
  else if (n =? 9)%nat then String backslash "t"
  else if (n =? 10)%nat then String backslash "n"
  else if (n =? 13)%nat then String backslash "r"
  else if (n <? 32)%nat || (n =? 127)%nat then
    String backslash
      (String "x" (String (hex_digit (n / 16)) (String (hex_digit (n mod 16)) EmptyString)))
  else String c EmptyString.

Fixpoint repr_chars (quote : ascii) (s : string) : string :=
  match s with
  | EmptyString => EmptyString
  | String c s' => repr_char quote c +:+ repr_chars quote s'
  end.

Definition repr_str (s : string) : string :=
  let quote :=
    if string_contains squote s && negb (string_contains dquote s)
    then dquote else squote in
  String quote (repr_chars quote s +:+ String quote EmptyString).

Fixpoint join_comma (l : list string) : string :=
  match l with
  | [] => EmptyString
  | [x] => x
  | x :: l' => x +:+ ", " +:+ join_comma l'
  end.

Fixpoint py_repr (v : PyVal) : string :=
  match v with
  | PNone => "None"
  | PBool true => "True"
  | PBool false => "False"
  | PInt n => pretty n
  | PStr s => repr_str s
  | PList l => "[" +:+ join_comma (map py_repr l) +:+ "]"
  | PDict d =>
      "{" +:+ join_comma (map (fun '(k, x) => repr_str k +:+ ": " +:+ py_repr x) d)
          +:+ "}"
  end.

Definition py_str (v : PyVal) : string :=
  match v with
  | PStr s => s
  | _ => py_repr v
  end.

(** Truth value of a Python object, as tested by [not v]. *)
Definition truthy (v : PyVal) : bool :=
  match v with
  | PNone => false
  | PBool b => b
  | PInt n => negb (n =? 0)
  | PStr s => negb (bool_decide (s = EmptyString))
  | PList l => negb (bool_decide (length l = 0%nat))
  | PDict d => negb (bool_decide (length d = 0%nat))
  end.

(** ** TranscodingTaskBuilder *)

#[global] Instance exn_ret : MRet (sum exn) := fun A a => inr a.
#[global] Instance exn_bind : MBind (sum exn) :=
  fun A B k m => match m with inr a => k a | inl e => inl e end.

(** Modelled from the spec: [is_type_of] of [apps/transcoding/common.py],
    missing from the sources; [is_type_of(dict)] is the validator of section
    4.1 that accepts a field exactly when it is a dictionary. *)
Definition is_type_of_dict (v : PyVal) : bool :=
  match v with
  | PDict _ => true
  | _ => false
  end.

(** [os.path.join] on two Python values. *)
Definition os_path_join (a b : PyVal) : exn + string :=
  match a, b with
  | PStr a, PStr b => inr (path_join a b)
  | _, _ => inl (TypeError "expected str, bytes or os.PathLike object")
  end.

Section TranscodingTaskBuilder.
Variable world : Collaborators.

(** The two [HandleError] decorators catch [ValueError] and [IOError];
    the body raises neither. *)
Definition _get_presets (path : string) : exn + Dict.t PyVal :=
  if negb (isfile world path)
  then inl (TranscodingTaskBuilderException (path +:+ " does not exist"))
  else inr [("container", PStr "mp4")].

Definition _get_required_field (dictionary : Dict.t PyVal) (key : string)
    (validator : PyVal -> bool) : exn + PyVal :=
  let v := default PNone (Dict.get dictionary key) in
  if negb (truthy v) || negb (validator v)
  then inl (TranscodingTaskBuilderException
              ("Field " +:+ key +:+ " is required in the task definition"))
  else inr v.

Definition get_output_path (dictionary : Dict.t PyVal)
    (definition : TranscodingTaskDefinition) : exn + string :=
  opts ← _get_required_field dictionary "options" is_type_of_dict;
  match opts with
  | PDict opts =>
      (* the default argument of [options.get] is evaluated first *)
      presets ← _get_presets (input_stream_path (options definition));
      let container := default (PDict presets) (Dict.get opts "container") in
      let alternative_name :=
        py_str (PStr (name definition)) +:+ "." +:+ py_str container in
      let filename :=
        default (PStr alternative_name) (Dict.get opts "output_filename") in
      match Dict.get opts "output_path" with
      | Some output_path => os_path_join output_path filename
      | None => inl (KeyError (PStr "output_path"))
      end
  | _ => inl (TypeError "object has no attribute 'get'")
  end.

(** The container that [build_full_definition] resolves for the same
    dictionary: [options.get('container', presets.get('container'))]. *)
Definition build_full_definition_container (opts presets : Dict.t PyVal)
    : PyVal :=
  default (default PNone (Dict.get presets "container"))
          (Dict.get opts "container").
End TranscodingTaskBuilder.

(** ** A concrete task, used to evaluate the model *)

Definition demo_world : Collaborators :=
  {| remove_intermediate_videos_raises := fun _ _ => None;
     merge_and_replace_video_streams_returns :=
       fun _ _ output_basename task_dir _ _ _ =>
         inr (path_join task_dir output_basename);
     makedirs_raises := fun _ => None;
     move_raises := fun _ _ => None;
     isfile := fun _ => true |}.

Definition demo_extra_data (subtask_num : Z) : PyVal :=
  PDict [("chunk", PInt subtask_num)].

Definition demo_definition : TranscodingTaskDefinition :=
  {| task_id := "task";
     name := "video";
     output_file := "/out/video.mp4";
     resources := ["/in/video.mkv"];
     subtasks_count := 0;
     options :=
       {| input_stream_path := "/in/video.mkv";
          output_container := Some "mp4";
          strip_unsupported_data_streams := false;
          strip_unsupported_subtitle_streams := false |} |}.

(** Two chunks, nothing dispatched yet. *)
Definition demo_task : TranscodingTask :=
  new_task demo_definition ["/work/chunk0"; "/work/chunk1"] "/work" "/res".

Definition demo_poll (sid : string) : event :=
  ev_poll sid (S754_zero false) None.

Definition demo_run (events : list event) : TranscodingTask :=
  run demo_world demo_extra_data events demo_task.

(** Both chunks dispatched, nothing reported yet: the cursor is at the end. *)
Definition both_dispatched : TranscodingTask :=
  demo_run [demo_poll "s0"; demo_poll "s1"].

(** Chunk 1 fails and is retried as [s2], then chunk 0 fails and is retried
    as [s3]; then both retries fail. *)
Definition both_retries_failed : TranscodingTask :=
  demo_run [demo_poll "s0"; demo_poll "s1";
            ev_failed "s1"; demo_poll "s2";
            ev_failed "s0"; demo_poll "s3";
            ev_failed "s2"; ev_failed "s3"].

(** Chunk 1 has failed once, chunk 0 is still out. *)
Definition one_failed : TranscodingTask :=
  demo_run [demo_poll "s0"; demo_poll "s1"; ev_failed "s1"].

(** The single chunk 0 fails, is retried as [s1] and fails again; chunk 1
    was never dispatched. *)
Definition chunk0_failed_twice : TranscodingTask :=
  demo_run [demo_poll "s0"; ev_failed "s0"; demo_poll "s1"; ev_failed "s1"].

(** ** Abbreviations used in the statements *)

(** The failure counters after one more failure of chunk [n]. *)
Definition count_failure (n : Z) (tries : gmap Z Z) : gmap Z Z :=
  <[n := default 0 (tries !! n) + 1]> tries.

(** The task after the counting part of [computation_failed] for a subtask
    of chunk [n]: counter incremented, latch set when the retry budget is
    used up. *)
Definition failure_counted (n : Z) (self : TranscodingTask) : TranscodingTask :=
  let counted :=
    with_number_of_failed_subtask_tries
      (count_failure n (number_of_failed_subtask_tries self)) self in
  if default 0 (number_of_failed_subtask_tries self !! n) + 1
     <? MAX_SUBTASK_RETRIES_AFTER_FAIL
  then counted
  else with_subtask_exceeded_max_retries_after_fail true counted.

(** The task after the bookkeeping part of [accept_results] for the
    outstanding subtask [sub] recorded under [sid]: status finished, results
    collected, count incremented. *)
Definition result_counted (sid : string) (sub : Subtask)
    (result_files : list string) (self : TranscodingTask) : TranscodingTask :=
  with_num_tasks_received (num_tasks_received self + 1)
    (with_collected_files (collected_files self ++ result_files)
       (with_subtasks_given
          (Dict.set (subtasks_given self) sid
             (set_status SubtaskStatus.finished sub)) self)).

(** Effects that produce or relocate output. *)
Definition produces_output (e : effect) : bool :=
  match e with
  | remove_intermediate_videos _ _ => false
  | merge_and_replace_video_streams _ _ _ _ _ _ _ => true
  | makedirs _ => true
  | move _ _ => true
  end.

Definition single_resource_assumption : string :=
  "Assumption: input file is the only resource in a transcoding task".

(** [self'] differs from [self] at most in the scheduling attributes
    [subtasks_given], [num_failed_subtasks] and [last_task]. *)
Definition scheduling_only (self self' : TranscodingTask) : Prop :=
  num_tasks_received self' = num_tasks_received self
  /\ subtask_exceeded_max_retries_after_fail self'
     = subtask_exceeded_max_retries_after_fail self
  /\ number_of_failed_subtask_tries self' = number_of_failed_subtask_tries self
  /\ task_definition self' = task_definition self
  /\ chunks self' = chunks self
  /\ collected_files self' = collected_files self
  /\ task_dir self' = task_dir self
  /\ resources_dir self' = resources_dir self
  /\ effects self' = effects self.

(** A task whose definition names two input resources, with the last of its
    two results still awaited. *)
Definition two_inputs_task : TranscodingTask :=
  run demo_world demo_extra_data
    [demo_poll "s0"; demo_poll "s1"; ev_accept "s0" ["/work/out0"]]
    (new_task
       (mkDefinition "task" "video" "/out/video.mp4"
          ["/in/video.mkv"; "/in/audio.mka"] 0 (options demo_definition))
       ["/work/chunk0"; "/work/chunk1"] "/work" "/res").

(** Chunk 0 succeeds; chunk 1 fails, is retried as [s2] and fails again. *)
Definition partially_failed : TranscodingTask :=
  demo_run [demo_poll "s0"; demo_poll "s1";
            ev_accept "s0" ["/work/out0"];
            ev_failed "s1"; demo_poll "s2"; ev_failed "s2"].

(** Chunk 0 succeeded, the result of chunk 1 is still awaited. *)
Definition last_result_pending : TranscodingTask :=
  demo_run [demo_poll "s0"; demo_poll "s1"; ev_accept "s0" ["/work/out0"]].

(** The result of chunk 1 arrives before the result of chunk 0. *)
Definition accepted_out_of_order : TranscodingTask :=
  demo_run [demo_poll "s0"; demo_poll "s1";
            ev_accept "s1" ["/work/out1"]; ev_accept "s0" ["/work/out0"]].

(** Chunk 0 has failed once and its retry [s1] is out. *)
Definition retry_outstanding : TranscodingTask :=
  demo_run [demo_poll "s0"; ev_failed "s0"; demo_poll "s1"].

(** Both chunks were retried, chunk 1 first, and both retries were then
    restarted from outside; the latch is not set. *)
Definition restarted_out_of_order : TranscodingTask :=
  with_num_failed_subtasks 2
    (with_subtasks_given
       [("s0", mkSubtask (S754_zero false) None "s0" (demo_extra_data 0) 0
                 SubtaskStatus.resent);
        ("s1", mkSubtask (S754_zero false) None "s1" (demo_extra_data 1) 1
                 SubtaskStatus.resent);
        ("s2", mkSubtask (S754_zero false) None "s2" (demo_extra_data 1) 1
                 SubtaskStatus.restarted);
        ("s3", mkSubtask (S754_zero false) None "s3" (demo_extra_data 0) 0
                 SubtaskStatus.restarted)]
       both_dispatched).

(** ** Repeated dispatch *)

(** [query_extra_data] called once for each identifier, in order, as the
    dispatch loop does for successive requests; the results are collected
    and the task is threaded through. *)
Fixpoint query_each (_get_extra_data : Z -> PyVal) (perf_index : spec_float)
    (node_id : option string) (sids : list string) (self : TranscodingTask)
    : list (exn + ComputeTaskDef) * TranscodingTask :=
  match sids with
  | [] => ([], self)
  | sid :: sids' =>
      let '(r, self1) :=
        query_extra_data _get_extra_data sid perf_index node_id self in
      let '(rs, self2) :=
        query_each _get_extra_data perf_index node_id sids' self1 in
      (r :: rs, self2)
  end.

(** The dispatch cursor lies between 0 and the number of chunks, and every
    recorded subtask belongs to a chunk below the cursor. *)
Definition indices_within_cursor (self : TranscodingTask) : Prop :=
  0 <= last_task self <= get_total_tasks self
  /\ Forall (fun sub => 0 <= subtask_num sub < last_task self)
            (Dict.values (subtasks_given self)).

(** Number of recorded subtasks that await a retry. *)
Definition failed_records (self : TranscodingTask) : nat :=
  length (List.filter is_failed_or_restarted
            (Dict.values (subtasks_given self))).

(** The record [query_extra_data] stores for a dispatch of chunk [n]. *)
Definition dispatched_subtask (_get_extra_data : Z -> PyVal) (sid : string)
    (perf_index : spec_float) (node_id : option string) (n : Z) : Subtask :=
  {| perf := perf_index; node_id := node_id; subtask_id := sid;
     transcoding_params := _get_extra_data n;
     subtask_num := n; status := SubtaskStatus.starting |}.

(** A task that was constructed but never initialized: three subtasks
    requested, no chunk files yet. *)
Definition uninitialized_task : TranscodingTask :=
  {| subtasks_given := [];
     num_tasks_received := 0;
     num_failed_subtasks := 0;
     last_task := 0;
     subtask_exceeded_max_retries_after_fail := false;
     number_of_failed_subtask_tries := ∅;
     task_definition :=
       mkDefinition "task" "video" "/out/video.mp4" ["/in/video.mkv"] 3
         (options demo_definition);
     chunks := [];
     collected_files := [];
     task_dir := EmptyString;
     resources_dir := EmptyString;
     effects := [] |}.

(** The latch is set exactly when some chunk's failure counter has reached
    the retry limit. *)
Definition latch_reflects_counters (self : TranscodingTask) : Prop :=
  subtask_exceeded_max_retries_after_fail self = true
  <-> exists k n : Z,
        number_of_failed_subtask_tries self !! k = Some n
        /\ MAX_SUBTASK_RETRIES_AFTER_FAIL <= n.

(** ** Codec and container compatibility *)

(** [ffmpeg_tools.formats.Container] as far as the builder uses it: the
    container's [value] and its two support tests.  A codec is represented
    by its [value]; [None] is the absent codec, and a codec that is present
    is a truthy enum member. *)
Record Container : Type := mkContainer {
  container_value : string;
  is_supported_audio_codec : string -> bool;
  is_supported_video_codec : string -> bool
}.

Inductive codec_support_error : Type :=
| AudioCodecNotSupportedByContainer (msg : string)
| VideoCodecNotSupportedByContainer (msg : string).

Definition _assert_codec_container_support
    (audio_codec video_codec : option string) (output_container : Container)
    : codec_support_error + unit :=
  let audio_rejected :=
    match audio_codec with
    | Some codec => negb (is_supported_audio_codec output_container codec)
    | None => false
    end in
  if audio_rejected then
    inl (AudioCodecNotSupportedByContainer
           ("Container " +:+ container_value output_container
            +:+ " does not support " +:+ default EmptyString audio_codec))
  else
    let video_rejected :=
      match video_codec with
      | Some codec => negb (is_supported_video_codec output_container codec)
      | None => false
      end in
    if video_rejected then
      inl (VideoCodecNotSupportedByContainer
             ("Container " +:+ container_value output_container
              +:+ " does not support " +:+ default EmptyString video_codec))
    else inr tt.

(** A world in which the input file is missing. *)
Definition world_without_input : Collaborators :=
  {| remove_intermediate_videos_raises := fun _ _ => None;
     merge_and_replace_video_streams_returns :=
       fun _ _ output_basename task_dir _ _ _ =>
         inr (path_join task_dir output_basename);
     makedirs_raises := fun _ => None;
     move_raises := fun _ _ => None;
     isfile := fun _ => false |}.

(** ** initialize *)

Definition with_task_dir (d : string) (self : TranscodingTask) :=
  mkTask (subtasks_given self) (num_tasks_received self)
    (num_failed_subtasks self) (last_task self)
    (subtask_exceeded_max_retries_after_fail self)
    (number_of_failed_subtask_tries self) (task_definition self) (chunks self)
    (collected_files self) d (resources_dir self) (effects self).

Definition with_resources_dir (d : string) (self : TranscodingTask) :=
  mkTask (subtasks_given self) (num_tasks_received self)
    (num_failed_subtasks self) (last_task self)
    (subtask_exceeded_max_retries_after_fail self)
    (number_of_failed_subtask_tries self) (task_definition self) (chunks self)
    (collected_files self) (task_dir self) d (effects self).

Definition with_chunks (l : list string) (self : TranscodingTask) :=
  mkTask (subtasks_given self) (num_tasks_received self)
    (num_failed_subtasks self) (last_task self)
    (subtask_exceeded_max_retries_after_fail self)
    (number_of_failed_subtask_tries self) (task_definition self) l
    (collected_files self) (task_dir self) (resources_dir self) (effects self).

(** [self.task_definition.subtasks_count = n] *)
Definition with_subtasks_count (n : Z) (self : TranscodingTask) :=
  mkTask (subtasks_given self) (num_tasks_received self)
    (num_failed_subtasks self) (last_task self)
    (subtask_exceeded_max_retries_after_fail self)
    (number_of_failed_subtask_tries self)
    (mkDefinition (task_id (task_definition self))
       (name (task_definition self)) (output_file (task_definition self))
       (resources (task_definition self)) n (options (task_definition self)))
    (chunks self) (collected_files self) (task_dir self) (resources_dir self)
    (effects self).

(** The directory manager, as far as [initialize] asks it. *)
Record DirManager : Type := mkDirManager {
  get_task_resource_dir : string -> string;
  get_task_output_dir : string -> string;
  get_task_temporary_dir : string -> string
}.

(** What the stream operator and the validation module return or raise:
    the split of [(input_file, parts, task_dir, task_id)] into chunk files
    and video metadata, and the two validations. *)
Record VideoTools : Type := mkVideoTools {
  extract_video_streams_and_split :
    string -> Z -> string -> string -> exn + (list string * PyVal);
  validate_video : PyVal -> option exn;
  validate_transcoding_params : PyVal -> PyVal -> option exn
}.

(** [initialize] raises [TranscodingException] itself and lets everything
    else through. *)
Inductive initialize_error : Type :=
| TranscodingException (msg : string)
| raised (e : exn).

(** [os.path.isabs] *)
Definition isabs (p : string) : bool :=
  match p with
  | String c _ => is_slash c
  | EmptyString => false
  end.

(** [v[key]] for a string key. *)
Definition py_getitem (v : PyVal) (key : string) : exn + PyVal :=
  match v with
  | PDict d =>
      match Dict.get d key with
      | Some x => inr x
      | None => inl (KeyError (PStr key))
      end
  | _ => inl (TypeError "object is not subscriptable")
  end.

(** The chunk paths [initialize] keeps: absolute ones as they are, the
    others below the task's output directory. *)
Definition chunk_streams (task_output_dir : string) (chunks : list string)
    : list string :=
  map (fun x => if isabs x then x else path_join task_output_dir x) chunks.

(** [initialize] acts on the task and on the base-class attribute
    [task_resources], which is carried beside it.  [super_initialize] is the
    base-class method called first. *)
Definition initialize
    (super_initialize :
       TranscodingTask * list string ->
       (exn + unit) * (TranscodingTask * list string))
    (_get_extra_data : Z -> PyVal) (tools : VideoTools)
    (dir_manager : DirManager) (st : TranscodingTask * list string)
    : (initialize_error + unit) * (TranscodingTask * list string) :=
  match super_initialize st with
  | (inl e, st1) => (inl (raised e), st1)
  | (inr _, (self, task_resources)) =>
      let task_id := task_id (task_definition self) in
      let self :=
        with_resources_dir (get_task_resource_dir dir_manager task_id) self in
      let task_output_dir := get_task_output_dir dir_manager task_id in
      let self :=
        with_task_dir (get_task_temporary_dir dir_manager task_id) self in
      match task_resources with
      | [] =>
          (inl (TranscodingException
                  ("[task_id=" +:+ task_id +:+ "] There is no input file.")),
           (self, task_resources))
      | input_file :: _ =>
          match extract_video_streams_and_split tools input_file
                  (get_total_tasks self) (task_dir self) task_id with
          | inl e => (inl (raised e), (self, task_resources))
          | inr (chunks, video_metadata) =>
              let streams := chunk_streams task_output_dir chunks in
              let self :=
                with_subtasks_count (Z.of_nat (length chunks))
                  (with_chunks streams self) in
              match validate_video tools video_metadata with
              | Some e => (inl (raised e), (self, streams))
              | None =>
                  match py_getitem (_get_extra_data 0) "targs" with
                  | inl e => (inl (raised e), (self, streams))
                  | inr dst_params =>
                      match validate_transcoding_params tools dst_params
                              video_metadata with
                      | Some e => (inl (raised e), (self, streams))
                      | None => (inr tt, (self, streams))
                      end
                  end
              end
          end
      end
  end.

(** A base class whose [initialize] changes nothing, tools that split into
    the two relative chunks [a] and [b] whatever number was asked for, and
    parameters that carry [targs]. *)
Definition demo_super_initialize (st : TranscodingTask * list string)
    : (exn + unit) * (TranscodingTask * list string) :=
  (inr tt, st).

Definition demo_tools : VideoTools :=
  {| extract_video_streams_and_split := fun _ _ _ _ => inr (["a"; "b"], PNone);
     validate_video := fun _ => None;
     validate_transcoding_params := fun _ _ => None |}.

Definition demo_dir_manager : DirManager :=
  {| get_task_resource_dir := fun id => "/res/" +:+ id;
     get_task_output_dir := fun id => "/output/" +:+ id;
     get_task_temporary_dir := fun id => "/tmp/" +:+ id |}.

Definition demo_targs (subtask_num : Z) : PyVal :=
  PDict [("targs", PDict [("chunk", PInt subtask_num)])].

(** Number of success notifications among the events. *)
Definition success_notifications (events : list event) : nat :=
  length (List.filter
            (fun e => match e with
                      | ev_accept _ _ => true
                      | _ => false
                      end) events).

(** * Properties *)

(** ** Dictionaries *)

Lemma Dict_get_set_eq {V} (d : Dict.t V) (k : string) (v : V) :
  Dict.get (Dict.set d k v) k = Some v.
Proof.
  induction d as [|[k' v'] d IH]; simpl.
  - by rewrite decide_True.
  - destruct (decide (k = k')) as [->|Hne]; simpl.
    + by rewrite decide_True.
    + by rewrite decide_False.
Qed.

Lemma Dict_get_set_ne {V} (d : Dict.t V) (k k' : string) (v : V) :
  k ≠ k' -> Dict.get (Dict.set d k v) k' = Dict.get d k'.
Proof.
  intros Hne. induction d as [|[k0 v0] d IH]; simpl.
  - by rewrite decide_False.
  - destruct (decide (k = k0)) as [->|Hk]; simpl.
    + by rewrite !decide_False.
    + destruct (decide (k' = k0)); done.
Qed.

Lemma Dict_values_alter {V} (f : V -> V) (i : nat) (d : Dict.t V) :
  Dict.values (alter (fun kv => (kv.1, f kv.2)) i d)
  = alter f i (Dict.values d).
Proof.
  unfold Dict.values. revert i.
  induction d as [|[k v] d IH]; intros [|i]; simpl; try done.
  f_equal. apply IH.
Qed.

Lemma Dict_keys_alter {V} (f : V -> V) (i : nat) (d : Dict.t V) :
  Dict.keys (alter (fun kv => (kv.1, f kv.2)) i d) = Dict.keys d.
Proof.
  unfold Dict.keys. revert i.
  induction d as [|[k v] d IH]; intros [|i]; simpl; try done.
  f_equal. apply IH.
Qed.

(** ** Unfolding the monad *)

Ltac py_unfold :=
  unfold mbind, mret, Py_bind, Py_ret, bind, ret, raise, get_self, gets,
    modify, assert, call in *.

Lemma mbind_inr {A B} (m : Py A) (k : A -> Py B) (self self' : TranscodingTask)
    (a : A) :
  m self = (inr a, self') -> (m ≫= k) self = k a self'.
Proof. intros H. unfold mbind, Py_bind, bind. by rewrite H. Qed.

Lemma mbind_inl {A B} (m : Py A) (k : A -> Py B) (self self' : TranscodingTask)
    (e : exn) :
  m self = (inl e, self') -> (m ≫= k) self = (inl e, self').
Proof. intros H. unfold mbind, Py_bind, bind. by rewrite H. Qed.

Lemma _get_subtask_number_from_id_known (self : TranscodingTask)
    (sid : string) (sub : Subtask) :
  Dict.get (subtasks_given self) sid = Some sub ->
  _get_subtask_number_from_id sid self = (inr (subtask_num sub), self).
Proof.
  intros H. unfold _get_subtask_number_from_id. py_unfold. by rewrite H.
Qed.

Lemma _get_subtask_number_from_id_unknown (self : TranscodingTask)
    (sid : string) :
  Dict.get (subtasks_given self) sid = None ->
  _get_subtask_number_from_id sid self = (inl (KeyError (PStr sid)), self).
Proof.
  intros H. unfold _get_subtask_number_from_id. py_unfold. by rewrite H.
Qed.

(** ** Unknown subtask ids *)

(** The lookup of an unrecorded id fails before anything is counted and
    before the base class is reached. *)
Lemma computation_failed_unrecorded (super : CoreTask)
    (self : TranscodingTask) (subtask_id : string) (ban_node : bool) :
  Dict.get (subtasks_given self) subtask_id = None ->
  computation_failed super subtask_id ban_node self
  = (inl (KeyError (PStr subtask_id)), self).
Proof.
  intros H. unfold computation_failed, _increment_number_of_subtask_fails.
  apply mbind_inl, mbind_inl.
  by apply _get_subtask_number_from_id_unknown.
Qed.

(** C8 (as amended): a failure notification whose subtask id matches no
    entry of [subtasks_given] leaves every attribute of the task unchanged,
    the failure counters, the latch and the statuses included, but it is not
    swallowed: [computation_failed] raises [KeyError] for the id, whatever
    the base class does, and the exception leaves the handler. *)
Theorem computation_failed_unknown_id (super : CoreTask)
    (self : TranscodingTask) (subtask_id : string) (ban_node : bool) :
  Dict.get (subtasks_given self) subtask_id = None ->
  computation_failed super subtask_id ban_node self
  = (inl (KeyError (PStr subtask_id)), self)
  /\ number_of_failed_subtask_tries
       (snd (computation_failed super subtask_id ban_node self))
     = number_of_failed_subtask_tries self
  /\ subtask_exceeded_max_retries_after_fail
       (snd (computation_failed super subtask_id ban_node self))
     = subtask_exceeded_max_retries_after_fail self
  /\ subtasks_given (snd (computation_failed super subtask_id ban_node self))
     = subtasks_given self.
Proof.
  intros H. by rewrite computation_failed_unrecorded.
Qed.

(** The claim C8 as stated fails: on the task with one dispatched chunk, the
    notification for the unrecorded id [zz] raises out of the handler. *)
Lemma computation_failed_unknown_id_raises :
  fst (computation_failed core_task "zz" true (demo_run [demo_poll "s0"]))
  = inl (KeyError (PStr "zz")).
Proof. vm_compute. reflexivity. Qed.

Lemma computation_failed_unknown_id_witness :
  Dict.get (subtasks_given (demo_run [demo_poll "s0"])) "zz" = None
  /\ computation_failed core_task "zz" true (demo_run [demo_poll "s0"])
     = (inl (KeyError (PStr "zz")), demo_run [demo_poll "s0"]).
Proof.
  split; [reflexivity|].
  exact (proj1 (computation_failed_unknown_id core_task
                  (demo_run [demo_poll "s0"]) "zz" true eq_refl)).
Defined.

(** ** Next-chunk selection *)

Lemma first_failed_subtask_None (self : TranscodingTask) :
  first_failed_subtask self = None
  <-> Forall (fun sub => is_failed_or_restarted sub = false)
             (Dict.values (subtasks_given self)).
Proof.
  unfold first_failed_subtask. rewrite list_find_None.
  apply Forall_iff. intros sub.
  destruct (is_failed_or_restarted sub); split; congruence.
Qed.

Lemma _get_next_subtask_retry (self : TranscodingTask) (i : nat)
    (failed_subtask : Subtask) :
  first_failed_subtask self = Some (i, failed_subtask) ->
  _get_next_subtask self
  = (inr (subtask_num failed_subtask),
     with_num_failed_subtasks (num_failed_subtasks self - 1)
       (with_subtasks_given
          (alter (fun kv => (kv.1, set_status SubtaskStatus.resent kv.2)) i
                 (subtasks_given self)) self)).
Proof.
  intros H. unfold _get_next_subtask. py_unfold. by rewrite H.
Qed.

Lemma _get_next_subtask_fresh (self : TranscodingTask) :
  first_failed_subtask self = None ->
  last_task self < get_total_tasks self ->
  _get_next_subtask self
  = (inr (last_task self), with_last_task (last_task self + 1) self).
Proof.
  intros H Hlt. unfold _get_next_subtask. py_unfold. rewrite H.
  apply Z.ltb_lt in Hlt. rewrite Hlt. do 2 f_equal. lia.
Qed.

Lemma _get_next_subtask_exhausted (self : TranscodingTask) :
  first_failed_subtask self = None ->
  get_total_tasks self <= last_task self ->
  _get_next_subtask self = (inl (AssertionError EmptyString), self).
Proof.
  intros H Hge. unfold _get_next_subtask. py_unfold. rewrite H.
  apply Z.ltb_ge in Hge. by rewrite Hge.
Qed.

(** C2 (as amended): whenever some recorded subtask has status failure or
    restarted, [_get_next_subtask] picks the first such subtask in the
    iteration order of [subtasks_given], which is the order in which the
    subtasks were dispatched and not the order of their chunk indices; it
    sets that subtask's status to resent, decrements [num_failed_subtasks]
    by one, returns that subtask's chunk index and leaves the dispatch
    cursor [last_task] where it was. *)
Theorem retry_first_selection (self : TranscodingTask) (k : nat)
    (sub0 : Subtask) :
  Dict.values (subtasks_given self) !! k = Some sub0 ->
  is_failed_or_restarted sub0 = true ->
  exists (i : nat) (sub : Subtask),
    Dict.values (subtasks_given self) !! i = Some sub
    /\ is_failed_or_restarted sub = true
    /\ (forall (j : nat) (sub' : Subtask),
          (j < i)%nat ->
          Dict.values (subtasks_given self) !! j = Some sub' ->
          is_failed_or_restarted sub' = false)
    /\ _get_next_subtask self
       = (inr (subtask_num sub),
          with_num_failed_subtasks (num_failed_subtasks self - 1)
            (with_subtasks_given
               (alter (fun kv => (kv.1, set_status SubtaskStatus.resent kv.2))
                      i (subtasks_given self)) self))
    /\ Dict.values (subtasks_given (snd (_get_next_subtask self)))
       = <[i := set_status SubtaskStatus.resent sub]>
           (Dict.values (subtasks_given self))
    /\ Dict.keys (subtasks_given (snd (_get_next_subtask self)))
       = Dict.keys (subtasks_given self)
    /\ last_task (snd (_get_next_subtask self)) = last_task self.
Proof.
  intros Hk Hfailed.
  destruct (first_failed_subtask self) as [[i sub]|] eqn:Hfind.
  - exists i, sub.
    pose proof Hfind as Hspec. unfold first_failed_subtask in Hspec.
    apply list_find_Some in Hspec as (Hi & Hp & Hmin).
    rewrite (_get_next_subtask_retry _ _ _ Hfind). simpl.
    repeat split; try done.
    + intros j sub' Hj Hsub'. specialize (Hmin j sub' Hsub' Hj).
      by destruct (is_failed_or_restarted sub').
    + rewrite Dict_values_alter.
      apply list_eq. intros n. destruct (decide (n = i)) as [->|Hne].
      * rewrite list_lookup_alter_eq, Hi. simpl.
        rewrite list_lookup_insert_eq; [done|].
        by apply lookup_lt_Some in Hi.
      * rewrite list_lookup_alter_ne by done.
        by rewrite list_lookup_insert_ne by done.
    + apply Dict_keys_alter.
  - apply first_failed_subtask_None in Hfind.
    rewrite Forall_lookup in Hfind. specialize (Hfind k sub0 Hk). congruence.
Qed.

(** C3 (as amended): when no recorded subtask has status failure or
    restarted and the dispatch cursor has reached the number of chunks,
    [_get_next_subtask] fails its assertion: it raises [AssertionError] and
    leaves the task unchanged, and so does [query_extra_data] before it
    records anything.  The selector has no value that stands for the
    absence of work. *)
Theorem exhausted_selector_asserts (_get_extra_data : Z -> PyVal)
    (self : TranscodingTask) (sid : string) (perf_index : spec_float)
    (node : option string) :
  Forall (fun sub => is_failed_or_restarted sub = false)
         (Dict.values (subtasks_given self)) ->
  get_total_tasks self <= last_task self ->
  _get_next_subtask self = (inl (AssertionError EmptyString), self)
  /\ query_extra_data _get_extra_data sid perf_index node self
     = (inl (AssertionError EmptyString), self).
Proof.
  intros Hnone Hge. apply first_failed_subtask_None in Hnone.
  pose proof (_get_next_subtask_exhausted _ Hnone Hge) as Hnext.
  split; [done|]. unfold query_extra_data. by apply mbind_inl.
Qed.

(** The claim C2 as stated fails: after both retries have failed, the failed
    subtask [s2] of chunk 1 precedes the failed subtask [s3] of chunk 0 in
    [subtasks_given], and the selector returns chunk 1.  The same happens,
    with the latch unset and the dispatch loop still asking for work, when
    the two retries were restarted. *)
Lemma retry_not_in_chunk_index_order :
  fst (_get_next_subtask both_retries_failed) = inr 1
  /\ Dict.keys (subtasks_given both_retries_failed) = ["s0"; "s1"; "s2"; "s3"]
  /\ map status (Dict.values (subtasks_given both_retries_failed))
     = [SubtaskStatus.resent; SubtaskStatus.resent;
        SubtaskStatus.failure; SubtaskStatus.failure]
  /\ map subtask_num (Dict.values (subtasks_given both_retries_failed))
     = [0; 1; 1; 0]
  /\ needs_computation core_task restarted_out_of_order = true
  /\ fst (_get_next_subtask restarted_out_of_order) = inr 1.
Proof. vm_compute. repeat split; reflexivity. Qed.

Lemma retry_first_selection_witness :
  exists (sub0 : Subtask),
    Dict.values (subtasks_given one_failed) !! 1%nat = Some sub0
    /\ is_failed_or_restarted sub0 = true
    /\ exists (i : nat) (sub : Subtask),
         Dict.values (subtasks_given one_failed) !! i = Some sub
         /\ is_failed_or_restarted sub = true
         /\ (forall (j : nat) (sub' : Subtask),
               (j < i)%nat ->
               Dict.values (subtasks_given one_failed) !! j = Some sub' ->
               is_failed_or_restarted sub' = false)
         /\ _get_next_subtask one_failed
            = (inr (subtask_num sub),
               with_num_failed_subtasks (num_failed_subtasks one_failed - 1)
                 (with_subtasks_given
                    (alter
                       (fun kv => (kv.1, set_status SubtaskStatus.resent kv.2))
                       i (subtasks_given one_failed)) one_failed))
         /\ Dict.values (subtasks_given (snd (_get_next_subtask one_failed)))
            = <[i := set_status SubtaskStatus.resent sub]>
                (Dict.values (subtasks_given one_failed))
         /\ Dict.keys (subtasks_given (snd (_get_next_subtask one_failed)))
            = Dict.keys (subtasks_given one_failed)
         /\ last_task (snd (_get_next_subtask one_failed))
            = last_task one_failed.
Proof.
  eexists. split; [reflexivity|]. split; [reflexivity|].
  exact (retry_first_selection one_failed 1%nat _ eq_refl eq_refl).
Defined.

(** The claim C3 as stated fails: with both chunks dispatched and none
    failed, the selector raises instead of returning. *)
Lemma exhausted_selector_raises :
  Forall (fun sub => is_failed_or_restarted sub = false)
         (Dict.values (subtasks_given both_dispatched))
  /\ last_task both_dispatched = get_total_tasks both_dispatched
  /\ _get_next_subtask both_dispatched
     = (inl (AssertionError EmptyString), both_dispatched).
Proof.
  split; [|split].
  - repeat constructor.
  - reflexivity.
  - reflexivity.
Qed.

Lemma exhausted_selector_asserts_witness :
  Forall (fun sub => is_failed_or_restarted sub = false)
         (Dict.values (subtasks_given both_dispatched))
  /\ get_total_tasks both_dispatched <= last_task both_dispatched
  /\ _get_next_subtask both_dispatched
     = (inl (AssertionError EmptyString), both_dispatched)
  /\ query_extra_data demo_extra_data "s2" (S754_zero false) None
       both_dispatched
     = (inl (AssertionError EmptyString), both_dispatched).
Proof.
  assert (H1 : Forall (fun sub => is_failed_or_restarted sub = false)
                 (Dict.values (subtasks_given both_dispatched)))
    by (repeat constructor).
  assert (H2 : get_total_tasks both_dispatched <= last_task both_dispatched)
    by (vm_compute; discriminate).
  split; [exact H1|]. split; [exact H2|].
  apply (exhausted_selector_asserts demo_extra_data both_dispatched); assumption.
Defined.

(** ** The termination predicate *)

Lemma length_filter_forallb {A} (f : A -> bool) (l : list A) :
  bool_decide (length (List.filter f l) = length l) = forallb f l.
Proof.
  induction l as [|x l IH]; simpl; [done|].
  destruct (f x); simpl.
  - rewrite <- IH. apply bool_decide_ext. lia.
  - apply bool_decide_eq_false.
    pose proof (filter_length_le f l). lia.
Qed.

Lemma _all_subtasks_have_ended_status_forallb (self : TranscodingTask) :
  _all_subtasks_have_ended_status self
  = forallb _is_subtask_ended (Dict.values (subtasks_given self)).
Proof. apply length_filter_forallb. Qed.

(** C5 (as amended): once the latch is set, [finished_computation] returns
    true exactly when every entry of [subtasks_given], that is every
    dispatch made so far, has an ended status; the ended statuses are
    exactly finished, failure, timeout, cancelled and resent.  A chunk that
    was never dispatched has no entry and is not looked at.  When the latch
    is not set, the criterion of the base class decides, which is that all
    chunks have been received. *)
Theorem partial_termination_predicate (super : CoreTask)
    (self : TranscodingTask) :
  finished_computation super self
  = (if subtask_exceeded_max_retries_after_fail self
     then forallb _is_subtask_ended (Dict.values (subtasks_given self))
     else core_finished_computation super self)
  /\ (forall sub : Subtask,
        _is_subtask_ended sub = true
        <-> status sub ∈ [SubtaskStatus.finished; SubtaskStatus.failure;
                          SubtaskStatus.timeout; SubtaskStatus.cancelled;
                          SubtaskStatus.resent])
  /\ core_finished_computation core_task self
     = bool_decide (num_tasks_received self = get_total_tasks self).
Proof.
  split; [|split].
  - unfold finished_computation.
    by rewrite _all_subtasks_have_ended_status_forallb.
  - intros sub. unfold _is_subtask_ended, SubtaskStatus.is_in. simpl.
    rewrite !orb_true_iff, !bool_decide_eq_true.
    rewrite !elem_of_cons, elem_of_nil. intuition discriminate.
  - reflexivity.
Qed.

(** The claim C5 as stated fails: chunk 0 has failed twice, chunk 1 of the
    two chunks was never dispatched and has no status at all, and the task
    counts as finished. *)
Lemma finished_with_undispatched_chunk :
  subtask_exceeded_max_retries_after_fail chunk0_failed_twice = true
  /\ get_total_tasks chunk0_failed_twice = 2
  /\ map subtask_num (Dict.values (subtasks_given chunk0_failed_twice)) = [0; 0]
  /\ finished_computation core_task chunk0_failed_twice = true.
Proof. vm_compute. repeat split; reflexivity. Qed.

(** ** Failure notifications on the modelled base class *)

Lemma _increment_number_of_subtask_fails_known (self : TranscodingTask)
    (sid : string) (sub : Subtask) :
  Dict.get (subtasks_given self) sid = Some sub ->
  _increment_number_of_subtask_fails sid self
  = (inr tt,
     with_number_of_failed_subtask_tries
       (count_failure (subtask_num sub) (number_of_failed_subtask_tries self))
       self).
Proof.
  intros H. unfold _increment_number_of_subtask_fails.
  rewrite (mbind_inr _ _ _ _ _ (_get_subtask_number_from_id_known _ _ _ H)).
  py_unfold. unfold count_failure.
  destruct (number_of_failed_subtask_tries self !! subtask_num sub)
    as [n|] eqn:Hn; simpl.
  - by rewrite Hn.
  - rewrite lookup_insert_eq. simpl. unfold with_number_of_failed_subtask_tries.
    simpl. by rewrite insert_insert_eq.
Qed.

Lemma _should_retry_failed_subtask_known (self : TranscodingTask)
    (sid : string) (sub : Subtask) (n : Z) :
  Dict.get (subtasks_given self) sid = Some sub ->
  number_of_failed_subtask_tries self !! subtask_num sub = Some n ->
  _should_retry_failed_subtask sid self
  = (inr (n <? MAX_SUBTASK_RETRIES_AFTER_FAIL), self).
Proof.
  intros H Hn. unfold _should_retry_failed_subtask.
  rewrite (mbind_inr _ _ _ _ _ (_get_subtask_number_from_id_known _ _ _ H)).
  py_unfold. by rewrite Hn.
Qed.

(** What [computation_failed] does for a recorded subtask: count, latch,
    then the base class. *)
Lemma computation_failed_known (super : CoreTask) (self : TranscodingTask)
    (sid : string) (sub : Subtask) (ban_node : bool) :
  Dict.get (subtasks_given self) sid = Some sub ->
  computation_failed super sid ban_node self
  = core_computation_failed super sid true
      (failure_counted (subtask_num sub) self).
Proof.
  intros H. unfold computation_failed.
  rewrite (mbind_inr _ _ _ _ _
             (_increment_number_of_subtask_fails_known _ _ _ H)).
  erewrite mbind_inr; cycle 1.
  { apply (_should_retry_failed_subtask_known _ _ sub); [exact H|].
    simpl. unfold count_failure. apply lookup_insert_eq. }
  unfold failure_counted.
  destruct (default 0 (number_of_failed_subtask_tries self !! subtask_num sub)
            + 1 <? MAX_SUBTASK_RETRIES_AFTER_FAIL); simpl.
  - by py_unfold.
  - by py_unfold.
Qed.

Lemma subtasks_given_failure_counted (n : Z) (self : TranscodingTask) :
  subtasks_given (failure_counted n self) = subtasks_given self.
Proof. unfold failure_counted. by case_match. Qed.

Lemma effects_failure_counted (n : Z) (self : TranscodingTask) :
  effects (failure_counted n self) = effects self.
Proof. unfold failure_counted. by case_match. Qed.

Lemma CoreTask_computation_failed_spec (self : TranscodingTask)
    (sid : string) (sub : Subtask) (ban_node : bool) :
  Dict.get (subtasks_given self) sid = Some sub ->
  CoreTask_computation_failed sid ban_node self
  = if is_outstanding sub
    then (inr tt,
          with_num_failed_subtasks (num_failed_subtasks self + 1)
            (with_subtasks_given
               (Dict.set (subtasks_given self) sid
                  (set_status SubtaskStatus.failure sub)) self))
    else (inl (UnknownDispatch sid), self).
Proof.
  intros H. unfold CoreTask_computation_failed. py_unfold. rewrite H.
  by destruct (is_outstanding sub).
Qed.

(** ** The merge step *)

Lemma with_effects_with_effects (l l' : list effect) (self : TranscodingTask) :
  with_effects l (with_effects l' self) = with_effects l self.
Proof. reflexivity. Qed.

(** Without exactly one input resource the merge stops at its assertion,
    after the intermediate videos have been removed. *)
Lemma _merge_video_unmet (world : Collaborators) (self : TranscodingTask) :
  length (resources (task_definition self)) ≠ 1%nat ->
  _merge_video world self
  = (inl (match remove_intermediate_videos_raises world
                  (resources_dir self) "*" with
          | Some err => err
          | None => AssertionError single_resource_assumption
          end),
     with_effects
       (effects self ++ [remove_intermediate_videos (resources_dir self) "*"])
       self).
Proof.
  intros Hlen. unfold _merge_video, call, returns_none. py_unfold. simpl.
  destruct (remove_intermediate_videos_raises world (resources_dir self) "*");
    [done|].
  by rewrite bool_decide_eq_false_2.
Qed.

(** The merge step touches nothing but the effect log, where it first
    records the removal of the intermediate videos and then only calls that
    produce or relocate output. *)
Lemma _merge_video_frame (world : Collaborators) (self : TranscodingTask) :
  exists (r : exn + bool) (l : list effect),
    _merge_video world self
    = (r, with_effects
            (effects self
             ++ remove_intermediate_videos (resources_dir self) "*" :: l)
            self)
    /\ forallb produces_output l = true.
Proof.
  unfold _merge_video, call, returns_none. py_unfold. simpl.
  destruct (remove_intermediate_videos_raises world (resources_dir self) "*").
  { by eexists _, []. }
  destruct (bool_decide (length (resources (task_definition self)) = 1%nat)).
  2: { by eexists _, []. }
  destruct (resources (task_definition self)) as [|input_file rest].
  { by eexists _, []. }
  simpl.
  destruct (merge_and_replace_video_streams_returns world _ _ _ _ _ _ _)
    as [err|merged]; simpl.
  { eexists _, [_]. split; [f_equal; unfold with_effects; simpl; f_equal;
            by rewrite <- app_assoc|reflexivity]. }
  destruct (makedirs_raises world _); simpl.
  { eexists _, [_; _]. split; [f_equal; unfold with_effects; simpl; f_equal;
            by rewrite <- !app_assoc|reflexivity]. }
  destruct (move_raises world _ _); simpl.
  { eexists _, [_; _; _]. split; [f_equal; unfold with_effects; simpl; f_equal;
            by rewrite <- !app_assoc|reflexivity]. }
  eexists _, [_; _; _]. split; [f_equal; unfold with_effects; simpl; f_equal;
          by rewrite <- !app_assoc|reflexivity].
Qed.

(** With one input resource and a removal that succeeds, the merger is
    called with the collected files as they stand. *)
Lemma _merge_video_met (world : Collaborators) (self : TranscodingTask)
    (input_file : string) :
  resources (task_definition self) = [input_file] ->
  remove_intermediate_videos_raises world (resources_dir self) "*" = None ->
  exists (r : exn + bool) (l : list effect),
    _merge_video world self
    = (r, with_effects
            (effects self
             ++ remove_intermediate_videos (resources_dir self) "*"
             :: merge_and_replace_video_streams input_file
                  (collected_files self)
                  (basename (output_file (task_definition self)))
                  (task_dir self)
                  (output_container (options (task_definition self)))
                  (strip_unsupported_data_streams
                     (options (task_definition self)))
                  (strip_unsupported_subtitle_streams
                     (options (task_definition self)))
             :: l)
            self)
    /\ forallb (fun e => match e with
                         | makedirs _ | move _ _ => true
                         | _ => false
                         end) l = true.
Proof.
  intros Hres Hrm.
  unfold _merge_video, call, returns_none. py_unfold. simpl.
  rewrite Hrm, Hres. simpl.
  destruct (merge_and_replace_video_streams_returns world _ _ _ _ _ _ _)
    as [err|merged]; simpl.
  { eexists _, []. split; [f_equal; unfold with_effects; simpl; f_equal;
            by rewrite <- app_assoc|reflexivity]. }
  destruct (makedirs_raises world _); simpl.
  { eexists _, [_]. split; [f_equal; unfold with_effects; simpl; f_equal;
            by rewrite <- !app_assoc|reflexivity]. }
  destruct (move_raises world _ _); simpl.
  { eexists _, [_; _]. split; [f_equal; unfold with_effects; simpl; f_equal;
            by rewrite <- !app_assoc|reflexivity]. }
  eexists _, [_; _]. split; [f_equal; unfold with_effects; simpl; f_equal;
          by rewrite <- !app_assoc|reflexivity].
Qed.

(** ** Success notifications on the modelled base class *)

Lemma accept_results_rejected (world : Collaborators) (self : TranscodingTask)
    (sid : string) (result_files : list string) :
  match Dict.get (subtasks_given self) sid with
  | Some sub => is_outstanding sub = false
  | None => True
  end ->
  accept_results core_task world sid result_files self
  = (inl (UnknownDispatch sid), self).
Proof.
  intros H. unfold accept_results. apply mbind_inl. simpl.
  unfold CoreTask_accept_results. py_unfold.
  destruct (Dict.get (subtasks_given self) sid) as [sub|]; [|done].
  by rewrite H.
Qed.

Lemma accept_results_accepted (world : Collaborators) (self : TranscodingTask)
    (sid : string) (sub : Subtask) (result_files : list string) :
  Dict.get (subtasks_given self) sid = Some sub ->
  is_outstanding sub = true ->
  accept_results core_task world sid result_files self
  = if bool_decide (num_tasks_received self + 1 = get_total_tasks self)
    then match _merge_video world (result_counted sid sub result_files self) with
         | (inr _, self') => (inr tt, self')
         | (inl err, self') => (inl err, self')
         end
    else (inr tt, result_counted sid sub result_files self).
Proof.
  intros H Hout. unfold accept_results. simpl.
  unfold CoreTask_accept_results, _collect_results. py_unfold.
  rewrite H, Hout. simpl.
  fold (result_counted sid sub result_files self).
  change (get_total_tasks (result_counted sid sub result_files self))
    with (get_total_tasks self).
  by destruct (bool_decide (num_tasks_received self + 1 = get_total_tasks self)).
Qed.

(** C10: the merge step requires exactly one input resource.  For a task
    definition with no or with several resources [_merge_video] stops at its
    assertion (or earlier, if removing the intermediate videos fails) having
    called neither the merger nor [makedirs] nor [move]; accepting the final
    required result then raises, and no call of [accept_results] produces or
    relocates any output. *)
Theorem merge_requires_single_resource (world : Collaborators)
    (self : TranscodingTask) :
  length (resources (task_definition self)) ≠ 1%nat ->
  _merge_video world self
  = (inl (match remove_intermediate_videos_raises world
                  (resources_dir self) "*" with
          | Some err => err
          | None => AssertionError single_resource_assumption
          end),
     with_effects
       (effects self ++ [remove_intermediate_videos (resources_dir self) "*"])
       self)
  /\ (forall (sid : string) (result_files : list string),
        List.filter produces_output
          (effects (snd (accept_results core_task world sid result_files self)))
        = List.filter produces_output (effects self))
  /\ (forall (sid : string) (sub : Subtask) (result_files : list string),
        Dict.get (subtasks_given self) sid = Some sub ->
        is_outstanding sub = true ->
        num_tasks_received self + 1 = get_total_tasks self ->
        fst (accept_results core_task world sid result_files self)
        = inl (match remove_intermediate_videos_raises world
                       (resources_dir self) "*" with
               | Some err => err
               | None => AssertionError single_resource_assumption
               end)).
Proof.
  intros Hlen. split; [by apply _merge_video_unmet|]. split.
  - intros sid result_files.
    destruct (Dict.get (subtasks_given self) sid) as [sub|] eqn:Hget.
    2: { rewrite accept_results_rejected; [done|]. by rewrite Hget. }
    destruct (is_outstanding sub) eqn:Hout.
    2: { rewrite accept_results_rejected; [done|]. by rewrite Hget. }
    rewrite (accept_results_accepted _ _ _ _ _ Hget Hout).
    case_bool_decide; [|done].
    rewrite _merge_video_unmet by done. simpl.
    rewrite List.filter_app. simpl. by rewrite app_nil_r.
  - intros sid sub result_files Hget Hout Hlast.
    rewrite (accept_results_accepted _ _ _ _ _ Hget Hout).
    rewrite bool_decide_eq_true_2 by done.
    by rewrite _merge_video_unmet by done.
Qed.

Lemma merge_requires_single_resource_witness :
  length (resources (task_definition two_inputs_task)) ≠ 1%nat
  /\ fst (accept_results core_task demo_world "s1" ["/work/out1"]
            two_inputs_task)
     = inl (AssertionError single_resource_assumption)
  /\ List.filter produces_output
       (effects (snd (accept_results core_task demo_world "s1" ["/work/out1"]
                        two_inputs_task)))
     = [].
Proof.
  assert (H : length (resources (task_definition two_inputs_task)) ≠ 1%nat)
    by (vm_compute; lia).
  split; [exact H|].
  destruct (merge_requires_single_resource demo_world two_inputs_task H)
    as (_ & Hnone & Hraise).
  split.
  - eapply (Hraise "s1"); reflexivity.
  - apply (Hnone "s1").
Defined.

(** ** What one event can change *)

Lemma _get_next_subtask_scheduling_only (self : TranscodingTask) :
  scheduling_only self (snd (_get_next_subtask self)).
Proof.
  unfold _get_next_subtask. py_unfold.
  destruct (first_failed_subtask self) as [[i sub]|]; simpl.
  - by repeat split.
  - destruct (last_task self <? get_total_tasks self); simpl;
      by repeat split.
Qed.

Lemma query_extra_data_scheduling_only (_get_extra_data : Z -> PyVal)
    (sid : string) (perf_index : spec_float) (node : option string)
    (self : TranscodingTask) :
  scheduling_only self
    (snd (query_extra_data _get_extra_data sid perf_index node self)).
Proof.
  pose proof (_get_next_subtask_scheduling_only self) as H.
  unfold query_extra_data. unfold mbind at 1. unfold Py_bind, bind.
  destruct (_get_next_subtask self) as [[err|n] self1]; simpl in *; [done|].
  unfold py_index. py_unfold. simpl.
  repeat case_match; simplify_eq; simpl; exact H.
Qed.

Lemma poll_scheduling_only (_get_extra_data : Z -> PyVal)
    (sid : string) (perf_index : spec_float) (node : option string)
    (self : TranscodingTask) :
  scheduling_only self (snd (poll _get_extra_data sid perf_index node self)).
Proof. unfold poll. apply query_extra_data_scheduling_only. Qed.

(** The selector and the dispatch read neither the latch nor the failure
    counters: with other values for the two they return the same result and
    leave the same task, up to those two values. *)
Lemma _get_next_subtask_ignores_latch (b : bool) (m : gmap Z Z)
    (self : TranscodingTask) :
  _get_next_subtask
    (with_subtask_exceeded_max_retries_after_fail b
       (with_number_of_failed_subtask_tries m self))
  = (fst (_get_next_subtask self),
     with_subtask_exceeded_max_retries_after_fail b
       (with_number_of_failed_subtask_tries m (snd (_get_next_subtask self)))).
Proof.
  unfold _get_next_subtask. py_unfold.
  change (first_failed_subtask
            (with_subtask_exceeded_max_retries_after_fail b
               (with_number_of_failed_subtask_tries m self)))
    with (first_failed_subtask self).
  destruct (first_failed_subtask self) as [[i sub]|]; [done|].
  change (last_task
            (with_subtask_exceeded_max_retries_after_fail b
               (with_number_of_failed_subtask_tries m self)))
    with (last_task self).
  change (get_total_tasks
            (with_subtask_exceeded_max_retries_after_fail b
               (with_number_of_failed_subtask_tries m self)))
    with (get_total_tasks self).
  by destruct (last_task self <? get_total_tasks self).
Qed.

Lemma query_extra_data_ignores_latch (_get_extra_data : Z -> PyVal)
    (sid : string) (perf_index : spec_float) (node : option string)
    (b : bool) (m : gmap Z Z) (self : TranscodingTask) :
  query_extra_data _get_extra_data sid perf_index node
    (with_subtask_exceeded_max_retries_after_fail b
       (with_number_of_failed_subtask_tries m self))
  = (fst (query_extra_data _get_extra_data sid perf_index node self),
     with_subtask_exceeded_max_retries_after_fail b
       (with_number_of_failed_subtask_tries m
          (snd (query_extra_data _get_extra_data sid perf_index node self)))).
Proof.
  unfold query_extra_data. py_unfold.
  rewrite _get_next_subtask_ignores_latch.
  destruct (_get_next_subtask self) as [[err|n] self1]; simpl; [done|].
  unfold py_index. py_unfold. simpl.
  repeat case_match; by simplify_eq.
Qed.

Lemma failure_counted_latch (n : Z) (self : TranscodingTask) :
  subtask_exceeded_max_retries_after_fail (failure_counted n self)
  = subtask_exceeded_max_retries_after_fail self
    || negb (default 0 (number_of_failed_subtask_tries self !! n) + 1
             <? MAX_SUBTASK_RETRIES_AFTER_FAIL).
Proof.
  unfold failure_counted. case_match; simpl.
  - by rewrite orb_false_r.
  - by rewrite orb_true_r.
Qed.

Lemma failure_counted_tries (n : Z) (self : TranscodingTask) :
  number_of_failed_subtask_tries (failure_counted n self)
  = count_failure n (number_of_failed_subtask_tries self).
Proof. unfold failure_counted. by case_match. Qed.

(** The state a failure notification leaves behind, with the modelled base
    class. *)
Lemma computation_failed_state (self : TranscodingTask) (sid : string)
    (ban_node : bool) :
  snd (computation_failed core_task sid ban_node self)
  = match Dict.get (subtasks_given self) sid with
    | None => self
    | Some sub =>
        if is_outstanding sub
        then with_num_failed_subtasks (num_failed_subtasks self + 1)
               (with_subtasks_given
                  (Dict.set (subtasks_given self) sid
                     (set_status SubtaskStatus.failure sub))
                  (failure_counted (subtask_num sub) self))
        else failure_counted (subtask_num sub) self
    end.
Proof.
  destruct (Dict.get (subtasks_given self) sid) as [sub|] eqn:Hget.
  - rewrite (computation_failed_known _ _ _ _ _ Hget). simpl.
    rewrite (CoreTask_computation_failed_spec _ _ sub).
    + destruct (is_outstanding sub); simpl; [|done].
      unfold failure_counted. by case_match.
    + by rewrite subtasks_given_failure_counted.
  - by rewrite computation_failed_unrecorded.
Qed.

Lemma merge_invocations_app (self : TranscodingTask) (dir pattern : string)
    (l : list effect) :
  forallb produces_output l = true ->
  length (List.filter
            (fun e => match e with
                      | remove_intermediate_videos _ _ => true
                      | _ => false
                      end)
            (effects self ++ remove_intermediate_videos dir pattern :: l))
  = S (merge_invocations self).
Proof.
  intros Hl. unfold merge_invocations.
  rewrite List.filter_app, length_app. simpl.
  assert (List.filter
            (fun e => match e with
                      | remove_intermediate_videos _ _ => true
                      | _ => false
                      end) l = []) as ->; [|simpl; lia].
  induction l as [|e l IH]; [done|]. simpl in *.
  apply andb_true_iff in Hl as [He Hl].
  destruct e; simpl in *; try discriminate; by apply IH.
Qed.

(** The state a success notification leaves behind, with the modelled base
    class: nothing when the base class rejects it; otherwise the result is
    counted and, exactly when the count reaches the number of chunks, the
    merge step is entered once. *)
Lemma accept_results_state (world : Collaborators) (self : TranscodingTask)
    (sid : string) (result_files : list string) :
  let self' := snd (accept_results core_task world sid result_files self) in
  self' = self
  \/ exists (sub : Subtask) (l : list effect),
       Dict.get (subtasks_given self) sid = Some sub
       /\ is_outstanding sub = true
       /\ self' = with_effects (effects self ++ l)
                    (result_counted sid sub result_files self)
       /\ ((num_tasks_received self + 1 ≠ get_total_tasks self /\ l = [])
           \/ (num_tasks_received self + 1 = get_total_tasks self
               /\ exists l',
                    l = remove_intermediate_videos (resources_dir self) "*" :: l'
                    /\ forallb produces_output l' = true)).
Proof.
  simpl.
  destruct (Dict.get (subtasks_given self) sid) as [sub|] eqn:Hget.
  2: { left. rewrite accept_results_rejected; [done|]. by rewrite Hget. }
  destruct (is_outstanding sub) eqn:Hout.
  2: { left. rewrite accept_results_rejected; [done|]. by rewrite Hget. }
  right. exists sub.
  rewrite (accept_results_accepted _ _ _ _ _ Hget Hout).
  case_bool_decide as HN.
  - destruct (_merge_video_frame world (result_counted sid sub result_files self))
      as (r & l' & Heq & Hl').
    rewrite Heq. exists (remove_intermediate_videos (resources_dir self) "*" :: l').
    repeat split; try done.
    + by destruct r.
    + right. split; [done|]. by exists l'.
  - exists []. repeat split; try done.
    + simpl. unfold with_effects. simpl. by rewrite app_nil_r.
    + by left.
Qed.

(** ** Invariants of runs *)

Section RunInvariants.
Variable world : Collaborators.
Variable _get_extra_data : Z -> PyVal.

Local Abbreviation step_ := (step world _get_extra_data).
Local Abbreviation run_ := (run world _get_extra_data).

Lemma step_facts (self : TranscodingTask) (e : event) :
  task_definition (step_ self e) = task_definition self
  /\ (subtask_exceeded_max_retries_after_fail self = true ->
      subtask_exceeded_max_retries_after_fail (step_ self e) = true)
  /\ num_tasks_received self <= num_tasks_received (step_ self e)
  /\ (merge_invocations (step_ self e) = merge_invocations self
      \/ (merge_invocations (step_ self e) = S (merge_invocations self)
          /\ num_tasks_received self + 1 = get_total_tasks self
          /\ num_tasks_received (step_ self e) = get_total_tasks self)).
Proof.
  destruct e as [sid perf_index node|sid result_files|sid]; simpl.
  - destruct (poll_scheduling_only _get_extra_data sid perf_index node self)
      as (Hn & Hl & _ & Htd & _ & _ & _ & _ & He).
    rewrite Htd, Hl, Hn. unfold merge_invocations. rewrite He.
    repeat split; try done. by left.
  - destruct (accept_results_state world self sid result_files)
      as [->|(sub & l & Hget & Hout & -> & Hl)].
    { repeat split; try done. by left. }
    simpl. repeat split; try done; [lia|].
    destruct Hl as [[HN ->]|[HN (l' & -> & Hl')]].
    + left. unfold merge_invocations. simpl. by rewrite app_nil_r.
    + right. split; [|done]. unfold merge_invocations at 1. simpl.
      by apply merge_invocations_app.
  - rewrite computation_failed_state.
    destruct (Dict.get (subtasks_given self) sid) as [sub|].
    2: { repeat split; try done. by left. }
    assert (subtask_exceeded_max_retries_after_fail self = true ->
            subtask_exceeded_max_retries_after_fail
              (failure_counted (subtask_num sub) self) = true) as Hlatch.
    { intros H. by rewrite failure_counted_latch, H. }
    destruct (is_outstanding sub); simpl;
      unfold merge_invocations; simpl;
      rewrite ?effects_failure_counted;
      (repeat split; [by unfold failure_counted; case_match
                     |done
                     |by unfold failure_counted; case_match
                     |by left]).
Qed.

Lemma run_snoc (events : list event) (e : event) (self : TranscodingTask) :
  run_ (events ++ [e]) self = step_ (run_ events self) e.
Proof. unfold run. by rewrite fold_left_app. Qed.

Lemma run_task_definition (events : list event) (self : TranscodingTask) :
  task_definition (run_ events self) = task_definition self.
Proof.
  induction events as [|e events IH] using rev_ind; [done|].
  rewrite run_snoc. by destruct (step_facts (run_ events self) e) as (-> & _).
Qed.

Lemma run_latched (events : list event) (self : TranscodingTask) :
  subtask_exceeded_max_retries_after_fail self = true ->
  subtask_exceeded_max_retries_after_fail (run_ events self) = true.
Proof.
  intros H. induction events as [|e events IH] using rev_ind; [done|].
  rewrite run_snoc. by apply step_facts.
Qed.

(** After the count has reached the number of chunks the merge step is
    not entered again. *)
Lemma run_no_further_merge (events : list event) (self : TranscodingTask) :
  get_total_tasks self <= num_tasks_received self ->
  merge_invocations (run_ events self) = merge_invocations self
  /\ get_total_tasks self <= num_tasks_received (run_ events self).
Proof.
  intros H. induction events as [|e events [IHm IHn]] using rev_ind; [done|].
  rewrite run_snoc.
  destruct (step_facts (run_ events self) e) as (Htd & _ & Hn & Hm).
  unfold get_total_tasks in *. rewrite run_task_definition in Hm.
  split; [|lia]. destruct Hm as [->|(_ & HN & _)]; [done|lia].
Qed.

(** Over any run the merge step is entered at most once more. *)
Lemma run_merge_at_most_once (events : list event) (self : TranscodingTask) :
  (merge_invocations (run_ events self) <= S (merge_invocations self))%nat.
Proof.
  assert (merge_invocations (run_ events self) = merge_invocations self
          \/ (merge_invocations (run_ events self) = S (merge_invocations self)
              /\ get_total_tasks self <= num_tasks_received (run_ events self)))
    as [->| [-> _]]; [|lia..].
  induction events as [|e events IH] using rev_ind; [by left|].
  rewrite run_snoc.
  destruct (step_facts (run_ events self) e) as (Htd & _ & Hn & Hm).
  unfold get_total_tasks in *. rewrite run_task_definition in Hm.
  destruct IH as [IH|[IH HN]].
  - destruct Hm as [Hm|(Hm & _ & HN)].
    + left. congruence.
    + right. split; [congruence|lia].
  - destruct Hm as [Hm|(Hm & HN' & _)].
    + right. split; [congruence|lia].
    + lia.
Qed.
End RunInvariants.

(** ** Bounded retries *)

(** C4 (as amended): a failure notification for a recorded subtask
    increments the failure counter of its chunk by exactly one, an absent
    counter counting as zero; [_should_retry_failed_subtask] then answers
    whether the counter is below [MAX_SUBTASK_RETRIES_AFTER_FAIL = 2]; the
    latch is set on the notification for which that answer is false; once
    set it stays set through every later dispatch, success notification and
    failure notification, and [needs_computation] returns false, whatever
    the base class says.  Dispatch itself is not bounded by this:
    [query_extra_data] reads neither the latch nor the counters, so it
    returns what it would return with any other values for the two, and a
    caller that does not ask [needs_computation] first is still handed a
    chunk. *)
Theorem bounded_retries (world : Collaborators) (_get_extra_data : Z -> PyVal)
    (self : TranscodingTask) (sid : string) (sub : Subtask) :
  Dict.get (subtasks_given self) sid = Some sub ->
  let n := default 0 (number_of_failed_subtask_tries self !! subtask_num sub) in
  let self' := snd (computation_failed core_task sid true self) in
  number_of_failed_subtask_tries self'
  = <[subtask_num sub := n + 1]> (number_of_failed_subtask_tries self)
  /\ fst (_should_retry_failed_subtask sid self') = inr (n + 1 <? 2)
  /\ MAX_SUBTASK_RETRIES_AFTER_FAIL = 2
  /\ subtask_exceeded_max_retries_after_fail self'
     = subtask_exceeded_max_retries_after_fail self || negb (n + 1 <? 2)
  /\ (subtask_exceeded_max_retries_after_fail self' = true ->
      forall (events : list event) (super : CoreTask),
        let later := run world _get_extra_data events self' in
        subtask_exceeded_max_retries_after_fail later = true
        /\ needs_computation super later = false)
  /\ (forall (later : TranscodingTask) (latch : bool) (counters : gmap Z Z)
             (sid' : string) (perf_index : spec_float) (node : option string),
        query_extra_data _get_extra_data sid' perf_index node
          (with_subtask_exceeded_max_retries_after_fail latch
             (with_number_of_failed_subtask_tries counters later))
        = (fst (query_extra_data _get_extra_data sid' perf_index node later),
           with_subtask_exceeded_max_retries_after_fail latch
             (with_number_of_failed_subtask_tries counters
                (snd (query_extra_data _get_extra_data sid' perf_index node
                        later))))).
Proof.
  intros Hget n self'.
  assert (number_of_failed_subtask_tries self'
          = <[subtask_num sub := n + 1]> (number_of_failed_subtask_tries self))
    as Htries.
  { subst self'. rewrite computation_failed_state, Hget.
    destruct (is_outstanding sub); simpl; by rewrite failure_counted_tries. }
  assert (exists sub', Dict.get (subtasks_given self') sid = Some sub'
                       /\ subtask_num sub' = subtask_num sub)
    as (sub' & Hget' & Hnum).
  { subst self'. rewrite computation_failed_state, Hget.
    destruct (is_outstanding sub); simpl.
    - eexists. split; [apply Dict_get_set_eq|done].
    - exists sub. by rewrite subtasks_given_failure_counted. }
  split; [exact Htries|]. split.
  { rewrite (_should_retry_failed_subtask_known _ _ sub' (n + 1) Hget'); [done|].
    rewrite Hnum, Htries. apply lookup_insert_eq. }
  split; [reflexivity|]. split.
  { subst self'. rewrite computation_failed_state, Hget.
    destruct (is_outstanding sub); simpl; by rewrite failure_counted_latch. }
  split.
  - intros Hlatch events super later.
    assert (subtask_exceeded_max_retries_after_fail later = true) as Hlater
      by by apply run_latched.
    split; [exact Hlater|]. unfold needs_computation. by rewrite Hlater.
  - intros later latch counters sid' perf_index node.
    apply query_extra_data_ignores_latch.
Qed.

(** The claim C4 as stated fails: chunk 0 has failed twice, its counter is
    at the limit, the latch is set and [needs_computation] returns false,
    yet a further call of [query_extra_data] dispatches chunk 0 a third
    time. *)
Lemma latched_task_still_dispatches :
  number_of_failed_subtask_tries chunk0_failed_twice !! 0 = Some 2
  /\ subtask_exceeded_max_retries_after_fail chunk0_failed_twice = true
  /\ needs_computation core_task chunk0_failed_twice = false
  /\ fst (query_extra_data demo_extra_data "s2" (S754_zero false) None
            chunk0_failed_twice)
     = inr (mkComputeTaskDef "s2" (demo_extra_data 0) (S754_zero false)
              ["/work/chunk0"]).
Proof. vm_compute. repeat split; reflexivity. Qed.

Lemma bounded_retries_witness :
  exists (sub : Subtask),
    Dict.get (subtasks_given retry_outstanding) "s1" = Some sub
    /\ number_of_failed_subtask_tries
         (snd (computation_failed core_task "s1" true retry_outstanding))
       = <[0 := 2]> (number_of_failed_subtask_tries retry_outstanding)
    /\ subtask_exceeded_max_retries_after_fail
         (snd (computation_failed core_task "s1" true retry_outstanding))
       = true.
Proof.
  eexists. split; [reflexivity|].
  destruct (bounded_retries demo_world demo_extra_data retry_outstanding
              "s1" _ eq_refl) as (Htries & _ & _ & Hlatch & _).
  split; [exact Htries | exact Hlatch].
Defined.

(** ** Success notifications and the merge *)

(** C1 (as amended): with the latch set, [finished_computation] returns
    true as soon as every recorded subtask has an ended status, but reaching
    that state invokes no merge.  A failure notification makes no external
    call at all; the merge step is entered only by [accept_results], and
    only by the notification that brings [num_tasks_received] to the number
    of chunks. *)
Theorem merge_only_on_full_count (world : Collaborators)
    (self : TranscodingTask) (sid : string) (ban_node : bool)
    (result_files : list string) :
  effects (snd (computation_failed core_task sid ban_node self)) = effects self
  /\ finished_computation core_task self
     = (if subtask_exceeded_max_retries_after_fail self
        then forallb _is_subtask_ended (Dict.values (subtasks_given self))
        else bool_decide (num_tasks_received self = get_total_tasks self))
  /\ (merge_invocations
        (snd (accept_results core_task world sid result_files self))
      = merge_invocations self
      \/ (num_tasks_received self + 1 = get_total_tasks self
          /\ merge_invocations
               (snd (accept_results core_task world sid result_files self))
             = S (merge_invocations self))).
Proof.
  split; [|split].
  - rewrite computation_failed_state.
    destruct (Dict.get (subtasks_given self) sid) as [sub|]; [|done].
    destruct (is_outstanding sub); simpl; by rewrite effects_failure_counted.
  - unfold finished_computation.
    by rewrite _all_subtasks_have_ended_status_forallb.
  - destruct (accept_results_state world self sid result_files)
      as [->|(sub & l & Hget & Hout & -> & Hl)]; [by left|].
    destruct Hl as [[HN ->]|[HN (l' & -> & Hl')]].
    + left. unfold merge_invocations. simpl. by rewrite app_nil_r.
    + right. split; [done|]. unfold merge_invocations at 1. simpl.
      by apply merge_invocations_app.
Qed.

(** The claim C1 as stated fails: chunk 0 has succeeded and chunk 1 has
    used up its retries; the latch is set, every recorded subtask has an
    ended status and the task counts as finished, yet no external call was
    made and the merge step was never entered. *)
Lemma partial_termination_without_merge :
  subtask_exceeded_max_retries_after_fail partially_failed = true
  /\ _all_subtasks_have_ended_status partially_failed = true
  /\ finished_computation core_task partially_failed = true
  /\ collected_files partially_failed = ["/work/out0"]
  /\ effects partially_failed = []
  /\ merge_invocations partially_failed = 0%nat.
Proof. vm_compute. repeat split; reflexivity. Qed.

Lemma merged_chunk_lists_app (self : TranscodingTask) (l : list effect) :
  merged_chunk_lists (with_effects (effects self ++ l) self)
  = (merged_chunk_lists self
     ++ omap (fun e => match e with
                       | merge_and_replace_video_streams _ c _ _ _ _ _ => Some c
                       | _ => None
                       end) l)%list.
Proof. unfold merged_chunk_lists. simpl. apply omap_app. Qed.

(** C6 (as amended): the success notification that brings the count of
    accepted results to the number of chunks reaches termination by the
    base-class criterion and enters the merge step exactly once; with one
    input resource the merger receives the collected result files in the
    order in which the results were accepted, not in the order of the chunk
    indices.  Whatever happens afterwards, the merge step is not entered a
    second time; and over any run of a new task it is entered at most
    once. *)
Theorem full_success_merge_once (world : Collaborators)
    (_get_extra_data : Z -> PyVal) (self : TranscodingTask) (sid : string)
    (sub : Subtask) (result_files : list string) (input_file : string) :
  Dict.get (subtasks_given self) sid = Some sub ->
  is_outstanding sub = true ->
  num_tasks_received self + 1 = get_total_tasks self ->
  resources (task_definition self) = [input_file] ->
  remove_intermediate_videos_raises world (resources_dir self) "*" = None ->
  let self' := snd (accept_results core_task world sid result_files self) in
  core_finished_computation core_task self' = true
  /\ merge_invocations self' = S (merge_invocations self)
  /\ merged_chunk_lists self'
     = (merged_chunk_lists self ++ [collected_files self ++ result_files])%list
  /\ (forall events : list event,
        merge_invocations (run world _get_extra_data events self')
        = merge_invocations self')
  /\ (forall (td : TranscodingTaskDefinition) (chunk_files : list string)
             (task_dir resources_dir : string) (events : list event),
        (merge_invocations
           (run world _get_extra_data events
              (new_task td chunk_files task_dir resources_dir)) <= 1)%nat).
Proof.
  intros Hget Hout HN Hres Hrm self'.
  destruct (_merge_video_met world (result_counted sid sub result_files self)
              input_file Hres Hrm) as (r & l & Hmerge & Hl).
  assert (self'
          = with_effects
              (effects self
               ++ remove_intermediate_videos (resources_dir self) "*"
               :: merge_and_replace_video_streams input_file
                    (collected_files self ++ result_files)
                    (basename (output_file (task_definition self)))
                    (task_dir self)
                    (output_container (options (task_definition self)))
                    (strip_unsupported_data_streams
                       (options (task_definition self)))
                    (strip_unsupported_subtitle_streams
                       (options (task_definition self)))
               :: l)
              (result_counted sid sub result_files self)) as Hself'.
  { subst self'. rewrite (accept_results_accepted _ _ _ _ _ Hget Hout).
    rewrite bool_decide_eq_true_2 by done.
    rewrite Hmerge. by destruct r. }
  assert (num_tasks_received self' = get_total_tasks self') as Hnum.
  { rewrite Hself'. simpl. exact HN. }
  split; [by apply bool_decide_eq_true_2|]. split.
  { rewrite Hself'. unfold merge_invocations at 1. simpl.
    apply merge_invocations_app. simpl.
    clear -Hl. induction l as [|e l IH]; [done|]. simpl in *.
    apply andb_true_iff in Hl as [He Hl]. rewrite (IH Hl).
    by destruct e. }
  split.
  { rewrite Hself'.
    change (with_effects ?l (result_counted sid sub result_files self))
      with (with_effects l
              (with_effects (effects self)
                 (result_counted sid sub result_files self))).
    unfold merged_chunk_lists. simpl. rewrite omap_app. simpl. f_equal.
    f_equal. clear -Hl. induction l as [|e l IH]; [done|]. simpl in *.
    apply andb_true_iff in Hl as [He Hl]. rewrite (IH Hl).
    by destruct e. }
  split.
  { intros events. apply run_no_further_merge. lia. }
  intros td chunk_files task_dir resources_dir events.
  apply (run_merge_at_most_once world _get_extra_data events
           (new_task td chunk_files task_dir resources_dir)).
Qed.

Lemma full_success_merge_once_witness :
  exists (sub : Subtask),
    Dict.get (subtasks_given last_result_pending) "s1" = Some sub
    /\ is_outstanding sub = true
    /\ num_tasks_received last_result_pending + 1
       = get_total_tasks last_result_pending
    /\ resources (task_definition last_result_pending) = ["/in/video.mkv"]
    /\ remove_intermediate_videos_raises demo_world
         (resources_dir last_result_pending) "*" = None
    /\ merged_chunk_lists
         (snd (accept_results core_task demo_world "s1" ["/work/out1"]
                 last_result_pending))
       = (merged_chunk_lists last_result_pending
          ++ [collected_files last_result_pending ++ ["/work/out1"]])%list.
Proof.
  eexists. do 5 (split; [reflexivity|]).
  exact (proj1 (proj2 (proj2
    (full_success_merge_once demo_world demo_extra_data last_result_pending
       "s1" _ ["/work/out1"] "/in/video.mkv"
       eq_refl eq_refl eq_refl eq_refl eq_refl)))).
Defined.

(** The claim C6 as stated fails: the result of chunk 1 is accepted before
    the result of chunk 0, and the merger is handed chunk 1's file first. *)
Lemma merge_receives_acceptance_order :
  merged_chunk_lists accepted_out_of_order = [["/work/out1"; "/work/out0"]]
  /\ map subtask_num (Dict.values (subtasks_given accepted_out_of_order))
     = [0; 1]
  /\ merge_invocations accepted_out_of_order = 1%nat.
Proof. vm_compute. repeat split; reflexivity. Qed.



(** ** The output path *)

Section OutputPath.
Variable world : Collaborators.
Variable dictionary : Dict.t PyVal.
Variable definition : TranscodingTaskDefinition.
Variable opts : Dict.t PyVal.
Variable output_path : string.

Hypothesis options_given : Dict.get dictionary "options" = Some (PDict opts).
Hypothesis output_path_given :
  Dict.get opts "output_path" = Some (PStr output_path).
Hypothesis input_exists :
  isfile world (input_stream_path (options definition)) = true.

Lemma options_accepted :
  _get_required_field dictionary "options" is_type_of_dict = inr (PDict opts).
Proof.
  unfold _get_required_field. rewrite options_given. simpl.
  destruct opts; [discriminate|done].
Qed.

(** An explicit file name is joined to the output path. *)
Lemma get_output_path_explicit_filename (filename : string) :
  Dict.get opts "output_filename" = Some (PStr filename) ->
  get_output_path world dictionary definition
  = inr (path_join output_path filename).
Proof.
  intros Hname. unfold get_output_path. rewrite options_accepted. simpl.
  unfold _get_presets. rewrite input_exists. simpl.
  by rewrite Hname, output_path_given.
Qed.

(** Without a file name, an explicit container gives [<name>.<container>]. *)
Lemma get_output_path_explicit_container (container : string) :
  Dict.get opts "output_filename" = None ->
  Dict.get opts "container" = Some (PStr container) ->
  get_output_path world dictionary definition
  = inr (path_join output_path (name definition +:+ "." +:+ container)).
Proof.
  intros Hname Hcontainer. unfold get_output_path.
  rewrite options_accepted. simpl.
  unfold _get_presets. rewrite input_exists. simpl.
  by rewrite Hname, Hcontainer, output_path_given.
Qed.

(** Without a file name and without a container, the extension is the
    text of the whole presets dictionary. *)
Lemma get_output_path_default_container :
  Dict.get opts "output_filename" = None ->
  Dict.get opts "container" = None ->
  get_output_path world dictionary definition
  = inr (path_join output_path
           (name definition +:+ ".{'container': 'mp4'}")).
Proof.
  intros Hname Hcontainer. unfold get_output_path.
  rewrite options_accepted. simpl.
  unfold _get_presets. rewrite input_exists. simpl.
  by rewrite Hname, Hcontainer, output_path_given.
Qed.
End OutputPath.

(** C9 fails on the code: for options that give only an output path,
    [get_output_path] passes the presets dictionary itself as the default
    container, so the file is named after the text of that dictionary
    instead of [video.mp4]; [build_full_definition] resolves the same
    default to [mp4]. *)
Theorem default_container_is_presets_dict :
  get_output_path demo_world
    [("options", PDict [("output_path", PStr "/out")])] demo_definition
  = inr "/out/video.{'container': 'mp4'}"
  /\ build_full_definition_container
       [("output_path", PStr "/out")] [("container", PStr "mp4")]
     = PStr "mp4"
  /\ path_join "/out" (name demo_definition +:+ "." +:+ "mp4")
     = "/out/video.mp4".
Proof. vm_compute. repeat split; reflexivity. Qed.

(** ** posixpath on examples *)

Example basename_example : basename "/out/dir/video.mp4" = "video.mp4".
Proof. reflexivity. Qed.

Example dirname_example : dirname "/out/dir//video.mp4" = "/out/dir".
Proof. reflexivity. Qed.

Example dirname_root_example : dirname "/video.mp4" = "/".
Proof. reflexivity. Qed.

Example path_join_absolute_example : path_join "/out/" "/a.mp4" = "/a.mp4".
Proof. reflexivity. Qed.


(** ** Dispatching chunks *)

Lemma Forall_values_set {V} (P : V -> Prop) (d : Dict.t V) (k : string)
    (v : V) :
  Forall P (Dict.values d) -> P v -> Forall P (Dict.values (Dict.set d k v)).
Proof.
  intros Hd Hv. unfold Dict.values in *.
  induction d as [|[k' v'] d IH]; simpl in *.
  - by constructor.
  - apply Forall_cons in Hd as [Hv' Hd].
    destruct (decide (k = k')); simpl; constructor; auto.
Qed.

Lemma py_index_in_range {A} (l : list A) (i : Z) (x : A)
    (self : TranscodingTask) :
  0 <= i -> l !! Z.to_nat i = Some x -> py_index l i self = (inr x, self).
Proof.
  intros Hi Hx. unfold py_index.
  pose proof (lookup_lt_Some _ _ _ Hx) as Hlen.
  assert ((i <? 0) = false) as -> by lia.
  assert ((0 <=? i) && (i <? Z.of_nat (length l)) = true) as ->.
  { apply andb_true_iff. split; lia. }
  by rewrite Hx.
Qed.


(** One first-time dispatch, spelled out. *)
Lemma query_extra_data_fresh (_get_extra_data : Z -> PyVal) (sid : string)
    (perf_index : spec_float) (node : option string) (self : TranscodingTask)
    (chunk_file : string) :
  first_failed_subtask self = None ->
  0 <= last_task self < get_total_tasks self ->
  chunks self !! Z.to_nat (last_task self) = Some chunk_file ->
  query_extra_data _get_extra_data sid perf_index node self
  = (inr (mkComputeTaskDef sid (_get_extra_data (last_task self)) perf_index
            [chunk_file]),
     with_subtasks_given
       (Dict.set (subtasks_given self) sid
          (dispatched_subtask _get_extra_data sid perf_index node
             (last_task self)))
       (with_last_task (last_task self + 1) self)).
Proof.
  intros Hnone [H0 HN] Hchunk. unfold query_extra_data.
  rewrite (mbind_inr _ _ _ _ _ (_get_next_subtask_fresh _ Hnone HN)).
  py_unfold. simpl.
  by rewrite (py_index_in_range _ _ chunk_file) by done.
Qed.

(** Successive first-time dispatches, by induction on the identifiers. *)
Lemma query_each_fresh (_get_extra_data : Z -> PyVal)
    (perf_index : spec_float) (node : option string) (sids : list string)
    (self : TranscodingTask) :
  Forall (fun sub => is_failed_or_restarted sub = false)
         (Dict.values (subtasks_given self)) ->
  0 <= last_task self ->
  last_task self + Z.of_nat (length sids) <= get_total_tasks self ->
  last_task self + Z.of_nat (length sids) <= Z.of_nat (length (chunks self)) ->
  length (fst (query_each _get_extra_data perf_index node sids self))
  = length sids
  /\ (forall (i : nat) (sid : string),
        sids !! i = Some sid ->
        exists chunk_file : string,
          chunks self !! (Z.to_nat (last_task self) + i)%nat = Some chunk_file
          /\ fst (query_each _get_extra_data perf_index node sids self) !! i
             = Some (inr (mkComputeTaskDef sid
                            (_get_extra_data (last_task self + Z.of_nat i))
                            perf_index [chunk_file])))
  /\ last_task (snd (query_each _get_extra_data perf_index node sids self))
     = last_task self + Z.of_nat (length sids).
Proof.
  revert self. induction sids as [|sid sids IH]; intros self Hnone H0 HN Hlen.
  { simpl. split; [done|]. split; [|lia]. intros i sid Hi. done. }
  simpl in HN, Hlen.
  destruct (lookup_lt_is_Some_2 (chunks self) (Z.to_nat (last_task self)))
    as [chunk_file Hchunk]; [lia|].
  assert (first_failed_subtask self = None) as Hfirst
    by by apply first_failed_subtask_None.
  simpl.
  rewrite (query_extra_data_fresh _ _ _ _ _ chunk_file Hfirst) by (done || lia).
  set (self1 := with_subtasks_given _ _).
  specialize (IH self1).
  destruct IH as (IHlen & IHeach & IHlast).
  { apply Forall_values_set; done. }
  { simpl. lia. }
  { simpl. unfold get_total_tasks in *. simpl. lia. }
  { simpl. lia. }
  destruct (query_each _get_extra_data perf_index node sids self1)
    as [rs self2]. simpl in *.
  split; [by rewrite IHlen|]. split; [|lia].
  intros [|i] sid' Hi; simpl in *.
  - injection Hi as <-. exists chunk_file.
    rewrite Nat.add_0_r, Z.add_0_r. done.
  - destruct (IHeach i sid' Hi) as (f & Hf & Hr).
    exists f. split.
    + rewrite <- Hf. f_equal. lia.
    + rewrite Hr. do 4 f_equal. lia.
Qed.

(** While no recorded subtask awaits a retry and enough chunks are left,
    successive calls of [query_extra_data] hand out the chunks in index
    order, one per call: the i-th call returns the parameters and the chunk
    file of chunk [last_task + i], and the cursor ends up advanced by the
    number of calls. *)
Theorem fresh_dispatch_in_order (_get_extra_data : Z -> PyVal)
    (perf_index : spec_float) (node : option string) (sids : list string)
    (self : TranscodingTask) :
  Forall (fun sub => is_failed_or_restarted sub = false)
         (Dict.values (subtasks_given self)) ->
  0 <= last_task self ->
  last_task self + Z.of_nat (length sids) <= get_total_tasks self ->
  last_task self + Z.of_nat (length sids) <= Z.of_nat (length (chunks self)) ->
  length (fst (query_each _get_extra_data perf_index node sids self))
  = length sids
  /\ (forall (i : nat) (sid : string),
        sids !! i = Some sid ->
        exists chunk_file : string,
          chunks self !! (Z.to_nat (last_task self) + i)%nat = Some chunk_file
          /\ fst (query_each _get_extra_data perf_index node sids self) !! i
             = Some (inr (mkComputeTaskDef sid
                            (_get_extra_data (last_task self + Z.of_nat i))
                            perf_index [chunk_file])))
  /\ last_task (snd (query_each _get_extra_data perf_index node sids self))
     = last_task self + Z.of_nat (length sids).
Proof. apply query_each_fresh. Qed.

Lemma fresh_dispatch_in_order_witness :
  Forall (fun sub => is_failed_or_restarted sub = false)
         (Dict.values (subtasks_given demo_task))
  /\ 0 <= last_task demo_task
  /\ last_task demo_task + Z.of_nat (length ["a"; "b"])
     <= get_total_tasks demo_task
  /\ last_task demo_task + Z.of_nat (length ["a"; "b"])
     <= Z.of_nat (length (chunks demo_task))
  /\ last_task
       (snd (query_each demo_extra_data (S754_zero false) None ["a"; "b"]
               demo_task))
     = last_task demo_task + Z.of_nat (length ["a"; "b"]).
Proof.
  assert (H1 : Forall (fun sub => is_failed_or_restarted sub = false)
                 (Dict.values (subtasks_given demo_task))) by constructor.
  assert (H2 : 0 <= last_task demo_task) by (vm_compute; discriminate).
  assert (H3 : last_task demo_task + Z.of_nat (length ["a"; "b"])
               <= get_total_tasks demo_task) by (vm_compute; discriminate).
  assert (H4 : last_task demo_task + Z.of_nat (length ["a"; "b"])
               <= Z.of_nat (length (chunks demo_task)))
    by (vm_compute; discriminate).
  do 4 (split; [assumption|]).
  exact (proj2 (proj2
    (fresh_dispatch_in_order demo_extra_data (S754_zero false) None
       ["a"; "b"] demo_task H1 H2 H3 H4))).
Defined.

(** Every dispatch can be resolved back: when [query_extra_data] returns a
    descriptor for the identifier [sid], the task holds under [sid] a
    subtask in status starting with the given performance index and node,
    its chunk index is the one the selector chose,
    [_get_subtask_number_from_id] finds it, and the descriptor carries that
    chunk's parameters and chunk file. *)
Theorem query_extra_data_round_trip (_get_extra_data : Z -> PyVal)
    (sid : string) (perf_index : spec_float) (node : option string)
    (self self' : TranscodingTask) (ctd : ComputeTaskDef) :
  query_extra_data _get_extra_data sid perf_index node self = (inr ctd, self') ->
  exists (n : Z) (chunk_file : string),
    fst (_get_next_subtask self) = inr n
    /\ py_index (chunks self) n self' = (inr chunk_file, self')
    /\ ctd = mkComputeTaskDef sid (_get_extra_data n) perf_index [chunk_file]
    /\ Dict.get (subtasks_given self') sid
       = Some (dispatched_subtask _get_extra_data sid perf_index node n)
    /\ _get_subtask_number_from_id sid self' = (inr n, self').
Proof.
  intros H. unfold query_extra_data in H.
  unfold mbind at 1 in H. unfold Py_bind, bind in H.
  destruct (_get_next_subtask_scheduling_only self)
    as (_ & _ & _ & _ & Hchunks & _).
  destruct (_get_next_subtask self) as [[err|n] self1]; [done|].
  simpl in Hchunks. py_unfold. simpl in H.
  destruct (py_index (chunks self1) n _) as [[err|chunk_file] self2] eqn:Hidx;
    [done|].
  injection H as <- <-.
  assert (self2 = with_subtasks_given
                    (Dict.set (subtasks_given self1) sid
                       (dispatched_subtask _get_extra_data sid perf_index
                          node n)) self1) as ->.
  { unfold py_index in Hidx. py_unfold.
    repeat case_match; by simplify_eq. }
  exists n, chunk_file. rewrite <- Hchunks.
  split; [done|]. split; [exact Hidx|]. split; [done|].
  assert (Dict.get
            (subtasks_given
               (with_subtasks_given
                  (Dict.set (subtasks_given self1) sid
                     (dispatched_subtask _get_extra_data sid perf_index
                        node n)) self1)) sid
          = Some (dispatched_subtask _get_extra_data sid perf_index node n))
    as Hget by apply Dict_get_set_eq.
  split; [exact Hget|].
  by rewrite (_get_subtask_number_from_id_known _ _ _ Hget).
Qed.

Lemma query_extra_data_round_trip_witness :
  query_extra_data demo_extra_data "s0" (S754_zero false) None demo_task
  = (inr (mkComputeTaskDef "s0" (demo_extra_data 0) (S754_zero false)
            ["/work/chunk0"]),
     snd (query_extra_data demo_extra_data "s0" (S754_zero false) None
            demo_task))
  /\ _get_subtask_number_from_id "s0"
       (snd (query_extra_data demo_extra_data "s0" (S754_zero false) None
               demo_task))
     = (inr 0,
        snd (query_extra_data demo_extra_data "s0" (S754_zero false) None
               demo_task)).
Proof.
  assert (H : query_extra_data demo_extra_data "s0" (S754_zero false) None
                demo_task
              = (inr (mkComputeTaskDef "s0" (demo_extra_data 0)
                        (S754_zero false) ["/work/chunk0"]),
                 snd (query_extra_data demo_extra_data "s0" (S754_zero false)
                        None demo_task))) by reflexivity.
  split; [exact H|].
  destruct (query_extra_data_round_trip demo_extra_data "s0" (S754_zero false)
              None demo_task _ _ H) as (n & f & Hn & _ & _ & _ & Hid).
  injection Hn as <-. exact Hid.
Defined.



(** The task [query_extra_data] leaves behind: what the selector left, plus
    the new record whenever the selector returned an index. *)
Lemma query_extra_data_state (_get_extra_data : Z -> PyVal) (sid : string)
    (perf_index : spec_float) (node : option string) (self : TranscodingTask) :
  snd (query_extra_data _get_extra_data sid perf_index node self)
  = match _get_next_subtask self with
    | (inl _, self1) => self1
    | (inr n, self1) =>
        with_subtasks_given
          (Dict.set (subtasks_given self1) sid
             (dispatched_subtask _get_extra_data sid perf_index node n))
          self1
    end.
Proof.
  unfold query_extra_data. unfold mbind at 1. unfold Py_bind, bind.
  destruct (_get_next_subtask self) as [[err|n] self1]; [done|].
  unfold py_index. py_unfold. simpl.
  repeat case_match; by simplify_eq.
Qed.

Lemma Dict_get_alter {V} (f : V -> V) (i : nat) (d : Dict.t V) (k : string) :
  Dict.get (alter (fun kv => (kv.1, f kv.2)) i d) k = Dict.get d k
  \/ exists v : V,
       Dict.values d !! i = Some v
       /\ Dict.get d k = Some v
       /\ Dict.get (alter (fun kv => (kv.1, f kv.2)) i d) k = Some (f v).
Proof.
  revert i. induction d as [|[k0 v0] d IH]; intros i; [by left|].
  destruct i as [|i]; simpl.
  - destruct (decide (k = k0)); [|by left].
    right. by exists v0.
  - destruct (decide (k = k0)); [by left|]. apply IH.
Qed.

Lemma filter_alter_count {A} (f : A -> bool) (g : A -> A) (l : list A)
    (i : nat) (x : A) :
  l !! i = Some x -> f x = true -> f (g x) = false ->
  S (length (List.filter f (alter g i l))) = length (List.filter f l).
Proof.
  revert i. induction l as [|y l IH]; intros i Hi Hx Hgx; [done|].
  destruct i as [|i]; simpl in *.
  - injection Hi as ->. by rewrite Hx, Hgx.
  - destruct (f y); simpl; [f_equal|]; by apply (IH i).
Qed.

(** The cursor never passes the number of chunks and no subtask is ever
    recorded for a chunk index outside [0, cursor): [query_extra_data]
    keeps this invariant whether it returns or raises, and an index chosen
    by the selector in such a state is a valid chunk index. *)
Theorem query_extra_data_keeps_indices_in_range
    (_get_extra_data : Z -> PyVal) (sid : string) (perf_index : spec_float)
    (node : option string) (self : TranscodingTask) :
  indices_within_cursor self ->
  indices_within_cursor
    (snd (query_extra_data _get_extra_data sid perf_index node self))
  /\ (forall n : Z,
        fst (_get_next_subtask self) = inr n -> 0 <= n < get_total_tasks self).
Proof.
  intros [Hcursor Hsubs]. rewrite query_extra_data_state.
  destruct (first_failed_subtask self) as [[i sub]|] eqn:Hfind.
  - rewrite (_get_next_subtask_retry _ _ _ Hfind).
    pose proof Hfind as Hspec. unfold first_failed_subtask in Hspec.
    apply list_find_Some in Hspec as (Hi & _ & _).
    pose proof (proj1 (Forall_lookup _ _) Hsubs i sub Hi) as Hsub.
    simpl in Hsub. split.
    + split; [done|]. simpl. apply Forall_values_set; [|done].
      rewrite Dict_values_alter. apply Forall_alter; [done|].
      intros x _ Hx. exact Hx.
    + intros n Hn. simpl in Hn. injection Hn as <-. lia.
  - destruct (decide (last_task self < get_total_tasks self)) as [Hlt|Hge].
    + rewrite (_get_next_subtask_fresh _ Hfind Hlt). split.
      * split; [unfold get_total_tasks in *; simpl; lia|]. simpl.
        apply Forall_values_set; [|simpl; lia].
        eapply Forall_impl; [exact Hsubs|]. simpl. intros x Hx. lia.
      * intros n Hn. simpl in Hn. injection Hn as <-. lia.
    + rewrite (_get_next_subtask_exhausted _ Hfind) by lia.
      split; [done|]. intros n Hn. done.
Qed.

Lemma query_extra_data_keeps_indices_in_range_witness :
  indices_within_cursor one_failed
  /\ indices_within_cursor
       (snd (query_extra_data demo_extra_data "s2" (S754_zero false) None
               one_failed)).
Proof.
  assert (H : indices_within_cursor one_failed).
  { split; [by vm_compute|]. repeat constructor; by vm_compute. }
  split; [exact H|].
  exact (proj1 (query_extra_data_keeps_indices_in_range demo_extra_data "s2"
                  (S754_zero false) None one_failed H)).
Defined.

(** No dispatch loses or rewrites an earlier record: after
    [query_extra_data], a subtask recorded under another identifier is
    still there, unchanged, or, if it was failed or restarted, with its
    status set to resent and nothing else changed. *)
Theorem query_extra_data_keeps_records (_get_extra_data : Z -> PyVal)
    (sid : string) (perf_index : spec_float) (node : option string)
    (self : TranscodingTask) (sid' : string) (sub : Subtask) :
  sid' ≠ sid ->
  Dict.get (subtasks_given self) sid' = Some sub ->
  Dict.get
    (subtasks_given
       (snd (query_extra_data _get_extra_data sid perf_index node self))) sid'
  = Some sub
  \/ (is_failed_or_restarted sub = true
      /\ Dict.get
           (subtasks_given
              (snd (query_extra_data _get_extra_data sid perf_index node self)))
           sid'
         = Some (set_status SubtaskStatus.resent sub)).
Proof.
  intros Hne Hget. rewrite query_extra_data_state.
  destruct (first_failed_subtask self) as [[i failed]|] eqn:Hfind.
  - rewrite (_get_next_subtask_retry _ _ _ Hfind). simpl.
    rewrite Dict_get_set_ne by done.
    unfold first_failed_subtask in Hfind.
    apply list_find_Some in Hfind as (Hi & Hp & _).
    destruct (Dict_get_alter (set_status SubtaskStatus.resent) i
                (subtasks_given self) sid') as [->|(v & Hv & Hk & ->)].
    + by left.
    + right. rewrite Hi in Hv. injection Hv as <-.
      rewrite Hget in Hk. injection Hk as <-. done.
  - destruct (decide (last_task self < get_total_tasks self)) as [Hlt|Hge].
    + rewrite (_get_next_subtask_fresh _ Hfind Hlt). simpl.
      left. by rewrite Dict_get_set_ne.
    + rewrite (_get_next_subtask_exhausted _ Hfind) by lia. by left.
Qed.

Lemma query_extra_data_keeps_records_witness :
  "s0" ≠ "s2"
  /\ (exists sub : Subtask,
        Dict.get (subtasks_given one_failed) "s0" = Some sub
        /\ Dict.get
             (subtasks_given
                (snd (query_extra_data demo_extra_data "s2" (S754_zero false)
                        None one_failed))) "s0"
           = Some sub).
Proof.
  split; [discriminate|]. eexists. split; [reflexivity|].
  destruct (query_extra_data_keeps_records demo_extra_data "s2"
              (S754_zero false) None one_failed "s0" _
              ltac:(discriminate) eq_refl) as [H|[Hfailed _]].
  - exact H.
  - discriminate Hfailed.
Defined.

(** A retry uses up exactly one waiting subtask: when some recorded subtask
    is failed or restarted, the selector leaves one fewer of them, so each
    failed subtask is handed out again once and not twice. *)
Theorem retry_consumes_one_failed_record (self : TranscodingTask) (k : nat)
    (sub0 : Subtask) :
  Dict.values (subtasks_given self) !! k = Some sub0 ->
  is_failed_or_restarted sub0 = true ->
  S (failed_records (snd (_get_next_subtask self))) = failed_records self
  /\ length (subtasks_given (snd (_get_next_subtask self)))
     = length (subtasks_given self).
Proof.
  intros Hk Hfailed.
  destruct (first_failed_subtask self) as [[i sub]|] eqn:Hfind.
  - rewrite (_get_next_subtask_retry _ _ _ Hfind). simpl.
    unfold first_failed_subtask in Hfind.
    apply list_find_Some in Hfind as (Hi & Hp & _).
    split; [|apply length_alter].
    unfold failed_records. simpl. rewrite Dict_values_alter.
    by apply (filter_alter_count _ _ _ _ sub).
  - apply first_failed_subtask_None in Hfind.
    rewrite Forall_lookup in Hfind. specialize (Hfind k sub0 Hk). congruence.
Qed.

Lemma retry_consumes_one_failed_record_witness :
  exists sub0 : Subtask,
    Dict.values (subtasks_given one_failed) !! 1%nat = Some sub0
    /\ is_failed_or_restarted sub0 = true
    /\ S (failed_records (snd (_get_next_subtask one_failed)))
       = failed_records one_failed.
Proof.
  eexists. split; [reflexivity|]. split; [reflexivity|].
  exact (proj1 (retry_consumes_one_failed_record one_failed 1%nat _
                  eq_refl eq_refl)).
Defined.

(** ** Delivery of the merged video *)

(** The merged video is moved to its destination only at the end of a
    complete merge: whatever the collaborators do, if [_merge_video] calls
    [move] at all, then there was exactly one input resource, the merger was
    given that resource and the collected files and returned the moved
    file, the directory of the output file was created first, the target is
    the task's output file, and the four external calls happened in the
    order removal, merge, [makedirs], [move]. *)
Theorem move_only_after_merge (world : Collaborators) (self : TranscodingTask) :
  exists l : list effect,
    snd (_merge_video world self) = with_effects (effects self ++ l) self
    /\ forall src dst : string,
         In (move src dst) l ->
         dst = output_file (task_definition self)
         /\ exists input_file : string,
              resources (task_definition self) = [input_file]
              /\ merge_and_replace_video_streams_returns world input_file
                   (collected_files self)
                   (basename (output_file (task_definition self)))
                   (task_dir self)
                   (output_container (options (task_definition self)))
                   (strip_unsupported_data_streams
                      (options (task_definition self)))
                   (strip_unsupported_subtitle_streams
                      (options (task_definition self)))
                 = inr src
              /\ makedirs_raises world
                   (dirname (output_file (task_definition self))) = None
              /\ l = [remove_intermediate_videos (resources_dir self) "*";
                      merge_and_replace_video_streams input_file
                        (collected_files self)
                        (basename (output_file (task_definition self)))
                        (task_dir self)
                        (output_container (options (task_definition self)))
                        (strip_unsupported_data_streams
                           (options (task_definition self)))
                        (strip_unsupported_subtitle_streams
                           (options (task_definition self)));
                      makedirs (dirname (output_file (task_definition self)));
                      move src dst].
Proof.
  unfold _merge_video, call, returns_none. py_unfold. simpl.
  destruct (remove_intermediate_videos_raises world (resources_dir self) "*").
  { eexists [_]. split; [done|]. intros src dst [H|[]]. discriminate. }
  destruct (resources (task_definition self)) as [|input_file [|other rest]]
    eqn:Hres; simpl.
  { eexists [_]. split; [done|]. intros src dst [H|[]]. discriminate. }
  2: { eexists [_]. split; [done|]. intros src dst [H|[]]. discriminate. }
  destruct (merge_and_replace_video_streams_returns world _ _ _ _ _ _ _)
    as [err|merged] eqn:Hmerge; simpl.
  { eexists [_; _]. split.
    - unfold with_effects; simpl. f_equal. by rewrite <- app_assoc.
    - intros src dst [H|[H|[]]]; discriminate. }
  destruct (makedirs_raises world _) eqn:Hmk; simpl.
  { eexists [_; _; _]. split.
    - unfold with_effects; simpl. f_equal. by rewrite <- !app_assoc.
    - intros src dst [H|[H|[H|[]]]]; discriminate. }
  destruct (move_raises world _ _); simpl.
  all: eexists [_; _; _; _]; split;
    [unfold with_effects; simpl; f_equal; by rewrite <- !app_assoc|].
  all: intros src dst [H|[H|[H|[H|[]]]]]; try discriminate.
  all: injection H as <- <-; split; [done|];
    exists input_file; repeat split; done.
Qed.

(** [_merge_video] returns only after a complete delivery: if it returns at
    all, it returns True, there was exactly one input resource, and the
    effect log gained exactly the removal of the intermediate videos, the
    merge of the collected files, the creation of the output directory and
    the move of the merged file to the task's output file. *)
Theorem _merge_video_returns (world : Collaborators) (self : TranscodingTask)
    (b : bool) :
  fst (_merge_video world self) = inr b ->
  b = true
  /\ exists input_file merged : string,
       resources (task_definition self) = [input_file]
       /\ effects (snd (_merge_video world self))
          = (effects self
             ++ [remove_intermediate_videos (resources_dir self) "*";
                 merge_and_replace_video_streams input_file
                   (collected_files self)
                   (basename (output_file (task_definition self)))
                   (task_dir self)
                   (output_container (options (task_definition self)))
                   (strip_unsupported_data_streams
                      (options (task_definition self)))
                   (strip_unsupported_subtitle_streams
                      (options (task_definition self)));
                 makedirs (dirname (output_file (task_definition self)));
                 move merged (output_file (task_definition self))])%list.
Proof.
  unfold _merge_video, call, returns_none. py_unfold. simpl.
  destruct (remove_intermediate_videos_raises world (resources_dir self) "*");
    [done|].
  destruct (resources (task_definition self)) as [|input_file [|other rest]];
    simpl; [done| |done].
  destruct (merge_and_replace_video_streams_returns world _ _ _ _ _ _ _)
    as [err|merged]; simpl; [done|].
  destruct (makedirs_raises world _); simpl; [done|].
  destruct (move_raises world _ _); simpl; [done|].
  intros H. injection H as <-. split; [done|].
  exists input_file, merged. split; [done|]. by rewrite <- !app_assoc.
Qed.

Lemma _merge_video_returns_witness :
  fst (_merge_video demo_world last_result_pending) = inr true
  /\ exists input_file merged : string,
       resources (task_definition last_result_pending) = [input_file]
       /\ effects (snd (_merge_video demo_world last_result_pending))
          = (effects last_result_pending
             ++ [remove_intermediate_videos
                   (resources_dir last_result_pending) "*";
                 merge_and_replace_video_streams input_file
                   (collected_files last_result_pending)
                   (basename (output_file (task_definition last_result_pending)))
                   (task_dir last_result_pending)
                   (output_container
                      (options (task_definition last_result_pending)))
                   (strip_unsupported_data_streams
                      (options (task_definition last_result_pending)))
                   (strip_unsupported_subtitle_streams
                      (options (task_definition last_result_pending)));
                 makedirs
                   (dirname (output_file (task_definition last_result_pending)));
                 move merged
                   (output_file (task_definition last_result_pending))])%list.
Proof.
  assert (H : fst (_merge_video demo_world last_result_pending) = inr true)
    by reflexivity.
  split; [exact H|].
  exact (proj2 (_merge_video_returns demo_world last_result_pending true H)).
Defined.


(** ** Failure counters along runs *)

Lemma step_counters (world : Collaborators) (_get_extra_data : Z -> PyVal)
    (self : TranscodingTask) (e : event) :
  (number_of_failed_subtask_tries (step world _get_extra_data self e)
   = number_of_failed_subtask_tries self
   /\ subtask_exceeded_max_retries_after_fail (step world _get_extra_data self e)
      = subtask_exceeded_max_retries_after_fail self)
  \/ exists n : Z,
       number_of_failed_subtask_tries (step world _get_extra_data self e)
       = number_of_failed_subtask_tries (failure_counted n self)
       /\ subtask_exceeded_max_retries_after_fail
            (step world _get_extra_data self e)
          = subtask_exceeded_max_retries_after_fail (failure_counted n self).
Proof.
  destruct e as [sid perf_index node|sid result_files|sid]; simpl.
  - left.
    destruct (poll_scheduling_only _get_extra_data sid perf_index node self)
      as (_ & Hl & Ht & _). by rewrite Hl, Ht.
  - left.
    destruct (accept_results_state world self sid result_files)
      as [->|(sub & l & _ & _ & -> & _)]; done.
  - rewrite computation_failed_state.
    destruct (Dict.get (subtasks_given self) sid) as [sub|]; [|by left].
    right. exists (subtask_num sub). by destruct (is_outstanding sub).
Qed.

Lemma failure_counted_reflects (n : Z) (self : TranscodingTask) :
  latch_reflects_counters self ->
  latch_reflects_counters (failure_counted n self).
Proof.
  unfold latch_reflects_counters, MAX_SUBTASK_RETRIES_AFTER_FAIL.
  intros [Hto Hfrom].
  rewrite failure_counted_latch, failure_counted_tries.
  unfold count_failure, MAX_SUBTASK_RETRIES_AFTER_FAIL.
  set (old := default 0 (number_of_failed_subtask_tries self !! n)).
  split.
  - intros H. apply orb_true_iff in H as [H|H].
    + destruct (Hto H) as (k & m & Hk & Hm).
      destruct (decide (k = n)) as [->|Hne].
      * exists n, (old + 1). rewrite lookup_insert_eq. split; [done|].
        subst old. rewrite Hk. simpl. lia.
      * exists k, m. by rewrite lookup_insert_ne.
    + exists n, (old + 1). rewrite lookup_insert_eq. split; [done|].
      apply negb_true_iff in H. lia.
  - intros (k & m & Hk & Hm). apply orb_true_iff.
    destruct (decide (k = n)) as [->|Hne].
    + rewrite lookup_insert_eq in Hk. injection Hk as <-.
      right. apply negb_true_iff. lia.
    + rewrite lookup_insert_ne in Hk by done. left. apply Hfrom. eauto.
Qed.

(** Along every run the latch and the counters stay in step: if the latch
    is set exactly when some chunk's failure counter has reached
    [MAX_SUBTASK_RETRIES_AFTER_FAIL], this is still so after any sequence of
    dispatches, success notifications and failure notifications. *)
Theorem latch_reflects_counters_run (world : Collaborators)
    (_get_extra_data : Z -> PyVal) (events : list event)
    (self : TranscodingTask) :
  latch_reflects_counters self ->
  latch_reflects_counters (run world _get_extra_data events self).
Proof.
  intros H. induction events as [|e events IH] using rev_ind; [done|].
  rewrite run_snoc.
  destruct (step_counters world _get_extra_data
              (run world _get_extra_data events self) e)
    as [[Ht Hl]|(n & Ht & Hl)].
  - unfold latch_reflects_counters in *. by rewrite Ht, Hl.
  - pose proof (failure_counted_reflects n _ IH) as Hn.
    unfold latch_reflects_counters in *. by rewrite Ht, Hl.
Qed.

Lemma latch_reflects_counters_run_witness :
  latch_reflects_counters demo_task
  /\ latch_reflects_counters
       (run demo_world demo_extra_data
          [demo_poll "s0"; ev_failed "s0"; demo_poll "s1"; ev_failed "s1"]
          demo_task).
Proof.
  assert (H : latch_reflects_counters demo_task).
  { split; [discriminate|]. intros (k & n & Hk & _).
    change (number_of_failed_subtask_tries demo_task)
      with (∅ : gmap Z Z) in Hk.
    by rewrite lookup_empty in Hk. }
  split; [exact H|].
  exact (latch_reflects_counters_run demo_world demo_extra_data _ demo_task H).
Defined.

(** No event ever lowers a failure counter: along every run the number of
    failures recorded for a chunk, an absent counter counting as zero, only
    grows. *)
Theorem failure_counters_never_decrease (world : Collaborators)
    (_get_extra_data : Z -> PyVal) (events : list event)
    (self : TranscodingTask) (k : Z) :
  default 0 (number_of_failed_subtask_tries self !! k)
  <= default 0
       (number_of_failed_subtask_tries
          (run world _get_extra_data events self) !! k).
Proof.
  induction events as [|e events IH] using rev_ind; [done|].
  rewrite run_snoc.
  destruct (step_counters world _get_extra_data
              (run world _get_extra_data events self) e)
    as [[-> _]|(n & -> & _)]; [done|].
  rewrite failure_counted_tries. unfold count_failure.
  destruct (decide (k = n)) as [->|Hne].
  - rewrite lookup_insert_eq. simpl. lia.
  - by rewrite lookup_insert_ne.
Qed.


(** ** Edge cases of the output path *)

(** The presets are read before the options are consulted: when the input
    stream is not an existing file, [get_output_path] raises
    [TranscodingTaskBuilderException] for any non-empty options dictionary,
    also when the options name both the container and the output file and
    the presets would not be needed. *)
Theorem get_output_path_needs_input_file (world : Collaborators)
    (dictionary : Dict.t PyVal) (definition : TranscodingTaskDefinition)
    (opts : Dict.t PyVal) :
  Dict.get dictionary "options" = Some (PDict opts) ->
  opts ≠ [] ->
  isfile world (input_stream_path (options definition)) = false ->
  get_output_path world dictionary definition
  = inl (TranscodingTaskBuilderException
           (input_stream_path (options definition) +:+ " does not exist")).
Proof.
  intros Hopts Hne Hfile. unfold get_output_path, _get_required_field.
  rewrite Hopts. simpl. destruct opts as [|kv opts]; [done|]. simpl.
  unfold _get_presets. by rewrite Hfile.
Qed.

Lemma get_output_path_needs_input_file_witness :
  Dict.get
    [("options",
      PDict [("output_path", PStr "/out"); ("container", PStr "mkv");
             ("output_filename", PStr "x.mkv")])] "options"
  = Some (PDict [("output_path", PStr "/out"); ("container", PStr "mkv");
                 ("output_filename", PStr "x.mkv")])
  /\ isfile world_without_input (input_stream_path (options demo_definition))
     = false
  /\ get_output_path world_without_input
       [("options",
         PDict [("output_path", PStr "/out"); ("container", PStr "mkv");
                ("output_filename", PStr "x.mkv")])] demo_definition
     = inl (TranscodingTaskBuilderException
              (input_stream_path (options demo_definition)
               +:+ " does not exist")).
Proof.
  split; [reflexivity|]. split; [reflexivity|].
  apply (get_output_path_needs_input_file world_without_input _ _
           [("output_path", PStr "/out"); ("container", PStr "mkv");
            ("output_filename", PStr "x.mkv")]);
    [reflexivity|discriminate|reflexivity].
Defined.

(** Options that are absent or falsy, such as [None] or the empty
    dictionary, count as missing: [get_output_path] raises the
    required-field error before it looks at the input file or at anything
    else. *)
Theorem get_output_path_requires_options (world : Collaborators)
    (dictionary : Dict.t PyVal) (definition : TranscodingTaskDefinition) :
  truthy (default PNone (Dict.get dictionary "options")) = false ->
  get_output_path world dictionary definition
  = inl (TranscodingTaskBuilderException
           "Field options is required in the task definition").
Proof.
  intros H. unfold get_output_path, _get_required_field. by rewrite H.
Qed.

Lemma get_output_path_requires_options_witness :
  truthy (default PNone (Dict.get [("options", PDict [])] "options")) = false
  /\ get_output_path demo_world [("options", PDict [])] demo_definition
     = inl (TranscodingTaskBuilderException
              "Field options is required in the task definition").
Proof.
  split; [reflexivity|].
  apply (get_output_path_requires_options demo_world); reflexivity.
Defined.

(** An absolute output file name wins over the output path: when the
    options give a file name that starts with a slash, [get_output_path]
    returns that name as it is and the given output path plays no part. *)
Theorem get_output_path_absolute_filename (world : Collaborators)
    (dictionary : Dict.t PyVal) (definition : TranscodingTaskDefinition)
    (opts : Dict.t PyVal) (output_path rest : string) :
  Dict.get dictionary "options" = Some (PDict opts) ->
  Dict.get opts "output_path" = Some (PStr output_path) ->
  Dict.get opts "output_filename" = Some (PStr (String "/" rest)) ->
  isfile world (input_stream_path (options definition)) = true ->
  get_output_path world dictionary definition = inr (String "/" rest).
Proof.
  intros Hopts Hpath Hname Hfile.
  rewrite (get_output_path_explicit_filename world dictionary definition opts
             output_path Hopts Hpath Hfile (String "/" rest) Hname).
  reflexivity.
Qed.

Lemma get_output_path_absolute_filename_witness :
  get_output_path demo_world
    [("options",
      PDict [("output_path", PStr "/out");
             ("output_filename", PStr "/elsewhere/x.mp4")])] demo_definition
  = inr "/elsewhere/x.mp4".
Proof.
  apply (get_output_path_absolute_filename demo_world _ _
           [("output_path", PStr "/out");
            ("output_filename", PStr "/elsewhere/x.mp4")] "/out");
    reflexivity.
Defined.

Lemma options_accepted_nonempty (dictionary opts : Dict.t PyVal) :
  Dict.get dictionary "options" = Some (PDict opts) ->
  opts ≠ [] ->
  _get_required_field dictionary "options" is_type_of_dict = inr (PDict opts).
Proof.
  intros Hopts Hne. unfold _get_required_field. rewrite Hopts. simpl.
  by destruct opts.
Qed.

(** The output path itself is not optional: with usable options and an
    existing input file but no [output_path] entry, [get_output_path] raises
    [KeyError] for that key, whatever the other entries are. *)
Theorem get_output_path_missing_output_path (world : Collaborators)
    (dictionary : Dict.t PyVal) (definition : TranscodingTaskDefinition)
    (opts : Dict.t PyVal) :
  Dict.get dictionary "options" = Some (PDict opts) ->
  opts ≠ [] ->
  isfile world (input_stream_path (options definition)) = true ->
  Dict.get opts "output_path" = None ->
  get_output_path world dictionary definition
  = inl (KeyError (PStr "output_path")).
Proof.
  intros Hopts Hne Hfile Hpath. unfold get_output_path.
  rewrite (options_accepted_nonempty _ _ Hopts Hne). simpl.
  unfold _get_presets. rewrite Hfile. simpl. by rewrite Hpath.
Qed.

Lemma get_output_path_missing_output_path_witness :
  isfile demo_world (input_stream_path (options demo_definition)) = true
  /\ Dict.get [("container", PStr "mkv")] "output_path" = None
  /\ get_output_path demo_world
       [("options", PDict [("container", PStr "mkv")])] demo_definition
     = inl (KeyError (PStr "output_path")).
Proof.
  split; [reflexivity|]. split; [reflexivity|].
  apply (get_output_path_missing_output_path demo_world _ _
           [("container", PStr "mkv")]);
    [reflexivity|discriminate|reflexivity|reflexivity].
Defined.

(** ** Codec and container compatibility *)

(** The compatibility check passes exactly when every codec that is given
    is supported by the container, an absent codec never being tested; the
    audio codec is tested first, so a rejected video codec is reported only
    when the audio codec passed. *)
Theorem _assert_codec_container_support_passes_iff
    (audio_codec video_codec : option string) (output_container : Container) :
  (_assert_codec_container_support audio_codec video_codec output_container
   = inr tt
   <-> (forall codec : string,
          audio_codec = Some codec ->
          is_supported_audio_codec output_container codec = true)
       /\ (forall codec : string,
             video_codec = Some codec ->
             is_supported_video_codec output_container codec = true))
  /\ (forall msg : string,
        _assert_codec_container_support audio_codec video_codec output_container
        = inl (VideoCodecNotSupportedByContainer msg) ->
        forall codec : string,
          audio_codec = Some codec ->
          is_supported_audio_codec output_container codec = true).
Proof.
  unfold _assert_codec_container_support.
  destruct audio_codec as [a|], video_codec as [v|]; simpl;
    try destruct (is_supported_audio_codec output_container a) eqn:Ha;
    try destruct (is_supported_video_codec output_container v) eqn:Hv;
    simpl; (split; [split|]); try done.
  all: try (intros _; split; intros codec Hc; by simplify_eq).
  all: try (intros [H1 H2]; first [specialize (H1 _ eq_refl)
                                  |specialize (H2 _ eq_refl)]; congruence).
  all: try (intros msg _ codec Hc; by simplify_eq).
  all: try (intros [H1 H2]; specialize (H2 _ eq_refl); congruence).
Qed.


(** ** Initialization *)

Lemma isabs_path_join (a b : string) :
  isabs a = true -> isabs b = false -> isabs (path_join a b) = true.
Proof.
  intros Ha Hb. destruct a as [|c a]; [done|].
  unfold path_join. destruct b as [|c' b]; simpl in *.
  - by destruct (ends_with_slash (String c a)).
  - rewrite Hb. by destruct (ends_with_slash (String c a)).
Qed.

(** What a successful [initialize] has established. *)
Lemma initialize_success
    (super_initialize :
       TranscodingTask * list string ->
       (exn + unit) * (TranscodingTask * list string))
    (_get_extra_data : Z -> PyVal) (tools : VideoTools)
    (dir_manager : DirManager) (st : TranscodingTask * list string) :
  fst (initialize super_initialize _get_extra_data tools dir_manager st)
  = inr tt ->
  get_total_tasks
    (fst (snd (initialize super_initialize _get_extra_data tools dir_manager st)))
  = Z.of_nat
      (length
         (chunks
            (fst (snd (initialize super_initialize _get_extra_data tools
                         dir_manager st))))).
Proof.
  unfold initialize.
  destruct (super_initialize st) as [[e|[]] [self task_resources]]; [done|].
  destruct task_resources as [|input_file rest]; [done|].
  destruct (extract_video_streams_and_split tools _ _ _ _)
    as [e|[chunk_files video_metadata]]; [done|].
  intros _.
  assert (forall r : initialize_error + unit,
            get_total_tasks
              (fst (snd (r, (with_subtasks_count
                               (Z.of_nat (length chunk_files))
                               (with_chunks
                                  (chunk_streams
                                     (get_task_output_dir dir_manager
                                        (task_id (task_definition self)))
                                     chunk_files)
                                  (with_task_dir
                                     (get_task_temporary_dir dir_manager
                                        (task_id (task_definition self)))
                                     (with_resources_dir
                                        (get_task_resource_dir dir_manager
                                           (task_id (task_definition self)))
                                        self))),
                         chunk_streams
                           (get_task_output_dir dir_manager
                              (task_id (task_definition self)))
                           chunk_files))))
            = Z.of_nat
                (length
                   (chunk_streams
                      (get_task_output_dir dir_manager
                         (task_id (task_definition self))) chunk_files)))
    as H.
  { intros r. simpl. unfold get_total_tasks, chunk_streams. simpl.
    by rewrite length_map. }
  repeat case_match; apply H.
Qed.

(** The shape of [initialize] once the base class has returned and the
    video has been split. *)
Lemma initialize_after_split
    (super_initialize :
       TranscodingTask * list string ->
       (exn + unit) * (TranscodingTask * list string))
    (_get_extra_data : Z -> PyVal) (tools : VideoTools)
    (dir_manager : DirManager) (st : TranscodingTask * list string)
    (self : TranscodingTask) (input_file : string) (rest : list string)
    (chunk_files : list string) (video_metadata : PyVal) :
  super_initialize st = (inr tt, (self, input_file :: rest)) ->
  extract_video_streams_and_split tools input_file (get_total_tasks self)
    (get_task_temporary_dir dir_manager (task_id (task_definition self)))
    (task_id (task_definition self))
  = inr (chunk_files, video_metadata) ->
  snd (initialize super_initialize _get_extra_data tools dir_manager st)
  = (with_subtasks_count (Z.of_nat (length chunk_files))
       (with_chunks
          (chunk_streams
             (get_task_output_dir dir_manager (task_id (task_definition self)))
             chunk_files)
          (with_task_dir
             (get_task_temporary_dir dir_manager
                (task_id (task_definition self)))
             (with_resources_dir
                (get_task_resource_dir dir_manager
                   (task_id (task_definition self)))
                self))),
     chunk_streams
       (get_task_output_dir dir_manager (task_id (task_definition self)))
       chunk_files).
Proof.
  intros Hsuper Hsplit. unfold initialize. rewrite Hsuper. cbv zeta.
  change (get_total_tasks (with_task_dir _ (with_resources_dir _ self)))
    with (get_total_tasks self).
  change (task_dir (with_task_dir ?d _)) with d.
  change (task_id (task_definition (with_resources_dir _ self)))
    with (task_id (task_definition self)).
  rewrite Hsplit.
  destruct (validate_video tools video_metadata); [done|].
  destruct (py_getitem (_get_extra_data 0) "targs") as [e|dst_params]; [done|].
  by destruct (validate_transcoding_params tools dst_params video_metadata).
Qed.

(** Without an input resource [initialize] raises [TranscodingException]
    naming the task: the resource and temporary directories have been set by
    then, but the video is never split, so the chunk list, the number of
    subtasks and everything else stay as the base class left them. *)
Theorem initialize_without_input
    (super_initialize :
       TranscodingTask * list string ->
       (exn + unit) * (TranscodingTask * list string))
    (_get_extra_data : Z -> PyVal) (tools : VideoTools)
    (dir_manager : DirManager) (st : TranscodingTask * list string)
    (self : TranscodingTask) :
  super_initialize st = (inr tt, (self, [])) ->
  initialize super_initialize _get_extra_data tools dir_manager st
  = (inl (TranscodingException
            ("[task_id=" +:+ task_id (task_definition self)
             +:+ "] There is no input file.")),
     (with_task_dir
        (get_task_temporary_dir dir_manager (task_id (task_definition self)))
        (with_resources_dir
           (get_task_resource_dir dir_manager (task_id (task_definition self)))
           self),
      [])).
Proof. intros H. unfold initialize. by rewrite H. Qed.

Lemma initialize_without_input_witness :
  demo_super_initialize (uninitialized_task, [])
  = (inr tt, (uninitialized_task, []))
  /\ fst (initialize demo_super_initialize demo_targs demo_tools
            demo_dir_manager (uninitialized_task, []))
     = inl (TranscodingException "[task_id=task] There is no input file.").
Proof.
  split; [reflexivity|].
  by rewrite (initialize_without_input demo_super_initialize demo_targs
                demo_tools demo_dir_manager (uninitialized_task, [])
                uninitialized_task eq_refl).
Defined.

(** Once the video has been split, the task works with the chunks that
    were actually produced, however many were requested and whether or not
    the validation that follows succeeds: the chunk list and the task
    resources are the produced chunk files, relative ones placed below the
    task's output directory, the number of subtasks is their number, and
    the dispatch bookkeeping is as the base class left it. *)
Theorem initialize_counts_actual_chunks
    (super_initialize :
       TranscodingTask * list string ->
       (exn + unit) * (TranscodingTask * list string))
    (_get_extra_data : Z -> PyVal) (tools : VideoTools)
    (dir_manager : DirManager) (st : TranscodingTask * list string)
    (self : TranscodingTask) (input_file : string) (rest : list string)
    (chunk_files : list string) (video_metadata : PyVal) :
  super_initialize st = (inr tt, (self, input_file :: rest)) ->
  extract_video_streams_and_split tools input_file (get_total_tasks self)
    (get_task_temporary_dir dir_manager (task_id (task_definition self)))
    (task_id (task_definition self))
  = inr (chunk_files, video_metadata) ->
  chunks
    (fst (snd (initialize super_initialize _get_extra_data tools dir_manager st)))
  = chunk_streams
      (get_task_output_dir dir_manager (task_id (task_definition self)))
      chunk_files
  /\ snd (snd (initialize super_initialize _get_extra_data tools dir_manager st))
     = chunk_streams
         (get_task_output_dir dir_manager (task_id (task_definition self)))
         chunk_files
  /\ get_total_tasks
       (fst (snd (initialize super_initialize _get_extra_data tools
                    dir_manager st)))
     = Z.of_nat (length chunk_files)
  /\ subtasks_given
       (fst (snd (initialize super_initialize _get_extra_data tools
                    dir_manager st)))
     = subtasks_given self
  /\ last_task
       (fst (snd (initialize super_initialize _get_extra_data tools
                    dir_manager st)))
     = last_task self.
Proof.
  intros Hsuper Hsplit.
  by rewrite (initialize_after_split _ _ _ _ _ _ _ _ _ _ Hsuper Hsplit).
Qed.

Lemma initialize_counts_actual_chunks_witness :
  demo_super_initialize (uninitialized_task, ["/in/video.mkv"])
  = (inr tt, (uninitialized_task, ["/in/video.mkv"]))
  /\ get_total_tasks uninitialized_task = 3
  /\ get_total_tasks
       (fst (snd (initialize demo_super_initialize demo_targs demo_tools
                    demo_dir_manager (uninitialized_task, ["/in/video.mkv"]))))
     = Z.of_nat (length ["a"; "b"]).
Proof.
  split; [reflexivity|]. split; [reflexivity|].
  exact (proj1 (proj2 (proj2
    (initialize_counts_actual_chunks demo_super_initialize demo_targs
       demo_tools demo_dir_manager (uninitialized_task, ["/in/video.mkv"])
       uninitialized_task "/in/video.mkv" [] ["a"; "b"] PNone
       eq_refl eq_refl)))).
Defined.

(** With an absolute output directory every chunk path the task keeps is
    absolute. *)
Theorem initialize_makes_chunks_absolute
    (super_initialize :
       TranscodingTask * list string ->
       (exn + unit) * (TranscodingTask * list string))
    (_get_extra_data : Z -> PyVal) (tools : VideoTools)
    (dir_manager : DirManager) (st : TranscodingTask * list string)
    (self : TranscodingTask) (input_file : string) (rest : list string)
    (chunk_files : list string) (video_metadata : PyVal) :
  super_initialize st = (inr tt, (self, input_file :: rest)) ->
  extract_video_streams_and_split tools input_file (get_total_tasks self)
    (get_task_temporary_dir dir_manager (task_id (task_definition self)))
    (task_id (task_definition self))
  = inr (chunk_files, video_metadata) ->
  isabs (get_task_output_dir dir_manager (task_id (task_definition self)))
  = true ->
  Forall (fun p => isabs p = true)
    (chunks
       (fst (snd (initialize super_initialize _get_extra_data tools
                    dir_manager st)))).
Proof.
  intros Hsuper Hsplit Habs.
  assert (chunks
            (fst (snd (initialize super_initialize _get_extra_data tools
                         dir_manager st)))
          = chunk_streams
              (get_task_output_dir dir_manager (task_id (task_definition self)))
              chunk_files) as ->.
  { by rewrite (initialize_after_split _ _ _ _ _ _ _ _ _ _ Hsuper Hsplit). }
  unfold chunk_streams. apply Forall_forall. intros p Hp.
  apply list_elem_of_fmap in Hp as (x & -> & _).
  destruct (isabs x) eqn:Hx; [done|]. by apply isabs_path_join.
Qed.

Lemma initialize_makes_chunks_absolute_witness :
  isabs (get_task_output_dir demo_dir_manager
           (task_id (task_definition uninitialized_task))) = true
  /\ Forall (fun p => isabs p = true)
       (chunks
          (fst (snd (initialize demo_super_initialize demo_targs demo_tools
                       demo_dir_manager
                       (uninitialized_task, ["/in/video.mkv"]))))).
Proof.
  split; [reflexivity|].
  exact (initialize_makes_chunks_absolute demo_super_initialize demo_targs
           demo_tools demo_dir_manager (uninitialized_task, ["/in/video.mkv"])
           uninitialized_task "/in/video.mkv" [] ["a"; "b"] PNone
           eq_refl eq_refl eq_refl).
Defined.

(** After a successful [initialize] every chunk can be dispatched: if no
    recorded subtask awaits a retry and the cursor is at 0, then for as many
    calls as there are chunks, the i-th call of [query_extra_data] returns
    chunk i with its chunk file; it raises neither [AssertionError] nor
    [IndexError]. *)
Theorem initialize_then_dispatch
    (super_initialize :
       TranscodingTask * list string ->
       (exn + unit) * (TranscodingTask * list string))
    (_get_extra_data : Z -> PyVal) (tools : VideoTools)
    (dir_manager : DirManager) (st : TranscodingTask * list string)
    (self' : TranscodingTask) (task_resources' : list string)
    (perf_index : spec_float) (node : option string) (sids : list string) :
  initialize super_initialize _get_extra_data tools dir_manager st
  = (inr tt, (self', task_resources')) ->
  Forall (fun sub => is_failed_or_restarted sub = false)
         (Dict.values (subtasks_given self')) ->
  last_task self' = 0 ->
  (length sids <= length (chunks self'))%nat ->
  forall (i : nat) (sid : string),
    sids !! i = Some sid ->
    exists chunk_file : string,
      chunks self' !! i = Some chunk_file
      /\ fst (query_each _get_extra_data perf_index node sids self') !! i
         = Some (inr (mkComputeTaskDef sid (_get_extra_data (Z.of_nat i))
                        perf_index [chunk_file])).
Proof.
  intros Hinit Hnone Hcursor Hlen i sid Hi.
  pose proof (initialize_success super_initialize _get_extra_data tools
                dir_manager st) as HN.
  rewrite Hinit in HN. simpl in HN. specialize (HN eq_refl).
  destruct (query_each_fresh _get_extra_data perf_index node sids self')
    as (_ & Heach & _); [done|lia|lia|lia|].
  destruct (Heach i sid Hi) as (f & Hf & Hr).
  rewrite Hcursor in Hf, Hr. simpl in Hf, Hr.
  by exists f.
Qed.

Lemma initialize_then_dispatch_witness :
  exists chunk_file : string,
    chunks
      (fst (snd (initialize demo_super_initialize demo_targs demo_tools
                   demo_dir_manager (uninitialized_task, ["/in/video.mkv"]))))
    !! 1%nat = Some chunk_file
    /\ fst (query_each demo_targs (S754_zero false) None ["s0"; "s1"]
              (fst (snd (initialize demo_super_initialize demo_targs demo_tools
                           demo_dir_manager
                           (uninitialized_task, ["/in/video.mkv"])))))
       !! 1%nat
       = Some (inr (mkComputeTaskDef "s1" (demo_targs (Z.of_nat 1))
                      (S754_zero false) [chunk_file])).
Proof.
  apply (initialize_then_dispatch demo_super_initialize demo_targs demo_tools
           demo_dir_manager (uninitialized_task, ["/in/video.mkv"])
           _ _ (S754_zero false) None ["s0"; "s1"] eq_refl).
  - constructor.
  - reflexivity.
  - vm_compute. lia.
  - reflexivity.
Defined.


(** ** Retries and results *)

(** A retry hands out the failed chunk itself: when the first subtask
    awaiting a retry belongs to chunk n, [query_extra_data] returns a
    descriptor with the parameters and the chunk file of chunk n under the
    new identifier, records the new subtask as starting, marks the old one
    resent and does not move the cursor. *)
Theorem query_extra_data_retry (_get_extra_data : Z -> PyVal) (sid : string)
    (perf_index : spec_float) (node : option string) (self : TranscodingTask)
    (i : nat) (failed_subtask : Subtask) (chunk_file : string) :
  first_failed_subtask self = Some (i, failed_subtask) ->
  0 <= subtask_num failed_subtask ->
  chunks self !! Z.to_nat (subtask_num failed_subtask) = Some chunk_file ->
  fst (query_extra_data _get_extra_data sid perf_index node self)
  = inr (mkComputeTaskDef sid (_get_extra_data (subtask_num failed_subtask))
           perf_index [chunk_file])
  /\ Dict.get
       (subtasks_given
          (snd (query_extra_data _get_extra_data sid perf_index node self))) sid
     = Some (dispatched_subtask _get_extra_data sid perf_index node
               (subtask_num failed_subtask))
  /\ last_task (snd (query_extra_data _get_extra_data sid perf_index node self))
     = last_task self
  /\ num_failed_subtasks
       (snd (query_extra_data _get_extra_data sid perf_index node self))
     = num_failed_subtasks self - 1.
Proof.
  intros Hfind H0 Hchunk.
  rewrite query_extra_data_state.
  unfold query_extra_data.
  rewrite (mbind_inr _ _ _ _ _ (_get_next_subtask_retry _ _ _ Hfind)).
  rewrite (_get_next_subtask_retry _ _ _ Hfind).
  py_unfold. simpl.
  rewrite (py_index_in_range _ _ chunk_file) by done. simpl.
  split; [done|]. split; [apply Dict_get_set_eq|done].
Qed.

Lemma query_extra_data_retry_witness :
  exists failed_subtask : Subtask,
    first_failed_subtask one_failed = Some (1%nat, failed_subtask)
    /\ 0 <= subtask_num failed_subtask
    /\ chunks one_failed !! Z.to_nat (subtask_num failed_subtask)
       = Some "/work/chunk1"
    /\ fst (query_extra_data demo_extra_data "s2" (S754_zero false) None
              one_failed)
       = inr (mkComputeTaskDef "s2"
                (demo_extra_data (subtask_num failed_subtask))
                (S754_zero false) ["/work/chunk1"]).
Proof.
  eexists. split; [reflexivity|].
  split; [by vm_compute|]. split; [reflexivity|].
  exact (proj1 (query_extra_data_retry demo_extra_data "s2" (S754_zero false)
                  None one_failed 1%nat _ "/work/chunk1"
                  eq_refl ltac:(by vm_compute) eq_refl)).
Defined.

Lemma step_results (world : Collaborators) (_get_extra_data : Z -> PyVal)
    (self : TranscodingTask) (e : event) :
  (collected_files (step world _get_extra_data self e) = collected_files self
   /\ num_tasks_received (step world _get_extra_data self e)
      = num_tasks_received self)
  \/ exists (sid : string) (result_files : list string),
       e = ev_accept sid result_files
       /\ collected_files (step world _get_extra_data self e)
          = (collected_files self ++ result_files)%list
       /\ num_tasks_received (step world _get_extra_data self e)
          = num_tasks_received self + 1.
Proof.
  destruct e as [sid perf_index node|sid result_files|sid]; simpl.
  - left.
    destruct (poll_scheduling_only _get_extra_data sid perf_index node self)
      as (Hn & _ & _ & _ & _ & Hc & _). by rewrite Hn, Hc.
  - destruct (accept_results_state world self sid result_files)
      as [->|(sub & l & _ & _ & -> & _)]; [by left|].
    right. by exists sid, result_files.
  - left. rewrite computation_failed_state.
    destruct (Dict.get (subtasks_given self) sid) as [sub|]; [|done].
    destruct (is_outstanding sub); simpl; unfold failure_counted;
      by case_match.
Qed.

(** Results only accumulate: along every run the files collected so far
    stay in place as a prefix of the collected files, and the count of
    received results never goes down and grows by at most one for each
    success notification. *)
Theorem results_only_accumulate (world : Collaborators)
    (_get_extra_data : Z -> PyVal) (events : list event)
    (self : TranscodingTask) :
  collected_files self
    `prefix_of` collected_files (run world _get_extra_data events self)
  /\ num_tasks_received self
     <= num_tasks_received (run world _get_extra_data events self)
     <= num_tasks_received self + Z.of_nat (success_notifications events).
Proof.
  induction events as [|e events [IHc IHn]] using rev_ind.
  { simpl. split; [done|]. unfold success_notifications. simpl. lia. }
  rewrite run_snoc. unfold success_notifications in *.
  rewrite List.filter_app, length_app.
  destruct (step_results world _get_extra_data
              (run world _get_extra_data events self) e)
    as [[-> ->]|(sid & result_files & -> & -> & ->)].
  - split; [done|]. lia.
  - split.
    + etrans; [exact IHc|]. by apply prefix_app_r.
    + simpl. lia.
Qed.
